(** * LlamaStack adapter: a shallow embedding of the request pipeline

    The adapter is a small Go HTTP service.  This development embeds the
    packages [config], [models], [llamastack] and [handlers] and proves the
    properties of the upstream client, the bearer-token guard, the models
    handler and the three health probes.

    Conventions of the embedding:
    - a Go [string] is a sequence of bytes, here [string] (8-bit [ascii]);
    - a Go [int] / [int64] is a [Z];
    - a Go slice is [slice A]: the nil slice or a list of elements;
    - a Go map is a [gmap];
    - a Go [error] is [option error], [None] being [nil];
    - a run-time panic is the result [Panic];
    - everything a function does to the outside world (reading the clock,
      logging, calling the HTTP client, writing the HTTP reply) is an
      [Event] of the run, and everything the outside world decides (the
      clock, what the HTTP client returns, the library routines for URL
      parsing and JSON decoding) is a field of [Env];
    - the HTTP client is modelled at its interface, [httpClient.Do]: an
      "outbound request" is a request the code hands to [Do], and its
      "answer" is what [Do] returns.  The client is built without a
      redirect policy of its own, so [net/http] follows a redirect that has
      a Location by itself, inside [Do]: the requests it sends to do so
      are not events of the run, and the response the code sees is the
      last one of the exchange. *)

From Stdlib Require Import ZArith Ascii String.
From stdpp Require Import base option list strings gmap.

Local Open Scope string_scope.
Local Open Scope list_scope.
Local Open Scope Z_scope.

(** ** Go strings and slices *)

Module gostring.

(** [len(s)] *)
Definition len (s : string) : Z := Z.of_nat (String.length s).

Fixpoint drop (n : nat) (s : string) : string :=
  match n, s with
  | O, _ => s
  | S _, EmptyString => EmptyString
  | S n', String _ s' => drop n' s'
  end.

Fixpoint take (n : nat) (s : string) : string :=
  match n, s with
  | O, _ => EmptyString
  | S _, EmptyString => EmptyString
  | S n', String a s' => String a (take n' s')
  end.

(** [s[i:]]: a run-time panic ([None]) unless [0 <= i <= len(s)]. *)
Definition slice_from (s : string) (i : Z) : option string :=
  if (0 <=? i) && (i <=? len s) then Some (drop (Z.to_nat i) s) else None.

(** [s[:j]]: a run-time panic ([None]) unless [0 <= j <= len(s)]. *)
Definition slice_to (s : string) (j : Z) : option string :=
  if (0 <=? j) && (j <=? len s) then Some (take (Z.to_nat j) s) else None.

(** [strings.HasPrefix(s, prefix)], a byte-wise comparison. *)
Definition HasPrefix (s prefix : string) : bool := String.prefix prefix s.

(** [strings.TrimPrefix(s, prefix)] *)
Definition TrimPrefix (s prefix : string) : string :=
  if HasPrefix s prefix then drop (String.length prefix) s else s.

(** [s == ""] *)
Definition is_empty (s : string) : bool :=
  match s with EmptyString => true | String _ _ => false end.

End gostring.

(** A Go slice: [nil], or a (possibly empty) sequence of elements.  A nil
    slice of a struct field tagged without [omitempty] is written as JSON
    [null]; a non-nil slice as an array. *)
Inductive slice (A : Type) : Type :=
| nil_slice
| mk_slice (elems : list A).
Arguments nil_slice {A}.
Arguments mk_slice {A} elems.

Module goslice.

(** What [range s] visits. *)
Definition elems {A} (s : slice A) : list A :=
  match s with nil_slice => [] | mk_slice l => l end.

(** [len(s)] *)
Definition len {A} (s : slice A) : Z := Z.of_nat (length (elems s)).

(** [make([]T, 0, cap)] *)
Definition make {A} (cap : Z) : slice A := mk_slice [].

(** [append(s, x)] *)
Definition append {A} (s : slice A) (x : A) : slice A :=
  mk_slice (elems s ++ [x]).

End goslice.

(** ** Time *)

Module time.

(** A [time.Time] as [time.Now] returns it: the wall clock (seconds since
    the Unix epoch and nanoseconds within the second) and a reading of the
    monotonic clock in nanoseconds. *)
Record Time := { wall_sec : Z; wall_nsec : Z; mono : Z }.

Definition Second : Z := 1000000000.
Definition minDuration : Z := - 2 ^ 63.
Definition maxDuration : Z := 2 ^ 63 - 1.

(** [t.Unix()] *)
Definition Unix (t : Time) : Z := wall_sec t.

(** [t.Sub(u)] for two readings that both carry the monotonic clock: the
    difference of the monotonic readings, saturated to the range of a
    [Duration]. *)
Definition Sub (t u : Time) : Z :=
  let d := mono t - mono u in
  if d <? minDuration then minDuration
  else if maxDuration <? d then maxDuration
  else d.

End time.

(** ** Errors and log arguments *)

(** A Go [error] value.  [Errorf] keeps the format string and the arguments
    of [fmt.Errorf] as they are in the source; [LibError] is an error
    produced inside a library ([net/http], [net/url], [encoding/json]);
    [AuthError] is the handlers package's own error type. *)
Inductive error : Type :=
| Errorf (format : string) (args : list fmt_arg)
| LibError (msg : string)
| AuthError (Message : string)
with fmt_arg : Type :=
| AStr (s : string)
| AInt (n : Z)
| ABool (b : bool)
| AErr (e : error)
| ADuration (d : Z).

(** A Go [(T, error)] pair of results, of which exactly one is meaningful. *)
Inductive result (A : Type) : Type :=
| Ok (a : A)
| Err (e : error).
Arguments Ok {A} a.
Arguments Err {A} e.

(** ** HTTP *)

Module http.

Definition StatusOK : Z := 200.
Definition StatusUnauthorized : Z := 401.
Definition StatusInternalServerError : Z := 500.
Definition StatusServiceUnavailable : Z := 503.

(** [http.Header], a [map[string][]string]. *)
Abbreviation Header := (gmap string (list string)).

(** [h.Get(key)]: the first value of the key, or [""]. *)
Definition Get (h : Header) (key : string) : string :=
  match h !! key with
  | Some (v :: _) => v
  | _ => ""
  end.

(** [h.Set(key, value)] *)
Definition Set_ (h : Header) (key value : string) : Header :=
  <[key := [value]]> h.

(** A [context.Context], as far as the code builds one: the context of
    the inbound request or of the process, narrowed by timeouts. *)
Inductive Context : Type :=
| Background
| WithTimeout (parent : Context) (timeout : Z).

(** An outbound [*http.Request]. *)
Record Request := {
  Ctx : Context;
  Method : string;
  URL : string;
  ReqHeader : Header;
}.

(** What one call of [httpClient.Do] returns, as the code sees it: an
    error (DNS, refused connection, timeout, cancelled context, too many
    redirects), or a response with its status code and body.  The response
    is the one that ends the exchange: a 3xx answer with a Location has
    been followed by [net/http] before [Do] returns, so a 3xx status
    reaches the code only when the answer had no Location. *)
Inductive RoundTrip : Type :=
| DoError (err : error)
| DoResponse (StatusCode : Z) (Body : string).

End http.

(** ** Wire types of the packages *)

Module openai.

(** [openai.Model] of the openai-go library, the fields the adapter
    fills. *)
Record Model := {
  ID : string;
  Created : Z;
  Object : string;
  OwnedBy : string;
}.

End openai.

(** Package [llamastack]: a model as the upstream reports it. *)
Record LlamaStackModel := {
  ID : string;
  Name : string;
  Description : string;
  Provider : string;
  Type_ : string;
}.

(** Package [llamastack]: the upstream's answer to the models call. *)
Record LlamaStackResponse := {
  Models : slice LlamaStackModel;
}.

(** Package [llamastack]: the client.  Its [http.Client] has the fixed
    timeout [defaultTimeout]; what it logs is part of the events of a run. *)
Record Client := {
  endpoint : string;
  apiKey : string;
}.

Module models.

(** The OpenAI-compatible response of [/v1/models]. *)
Record ModelsResponse := {
  Object : string;
  Data : slice openai.Model;
}.

Record Error := {
  Message : string;
  Type_ : string;
  Code : string;
}.

Record ErrorResponse := {
  Error_ : Error;
}.

Definition NewModelsResponse (models : slice openai.Model) : ModelsResponse :=
  {| Object := "list"; Data := models |}.

Definition NewErrorResponse (message errorType : string) : ErrorResponse :=
  {| Error_ := {| Message := message; Type_ := errorType; Code := "" |} |}.

End models.

(** Package [handlers]: the body of [/health]. *)
Record HealthResponse := {
  Status : string;
  Timestamp : time.Time;
  Services : gmap string string;
  Version : string;
  Uptime : string;
}.

Module gin.

(** A value of a [gin.H], which is a [map[string]any]. *)
Inductive HValue : Type :=
| HBool (b : bool)
| HString (s : string)
| HTime (t : time.Time).

Abbreviation H := (gmap string HValue).

(** The object handed to [c.JSON]. *)
Inductive Body : Type :=
| JModels (r : models.ModelsResponse)
| JError (r : models.ErrorResponse)
| JHealth (r : HealthResponse)
| JH (h : H).

(** The inbound side of a [*gin.Context]: the request's headers and
    context, and what gin computes as the client's address. *)
Record Context := {
  Header : http.Header;
  RequestContext : http.Context;
  RemoteIP : string;
}.

End gin.

(** ** The world: environment, state, trace *)

Inductive Level : Type := Debug | Info | Warn | Error.

(** One thing the program did to the outside world. *)
Inductive Event : Type :=
| EvNow (t : time.Time)                                  (* time.Now() *)
| EvLog (lvl : Level) (format : string) (args : list fmt_arg)
| EvClientIP (ip : string)                               (* c.ClientIP() *)
| EvGetHeader (key value : string)                       (* c.GetHeader(key) *)
| EvDo (req : http.Request) (r : http.RoundTrip)         (* r := httpClient.Do(req) *)
| EvJSON (code : Z) (obj : gin.Body).                    (* c.JSON(code, obj) *)

(** What the program does not decide. *)
Record Env := {
  (** the successive readings of [time.Now] *)
  clock : nat → time.Time;
  (** the error, if any, of [http.NewRequestWithContext] for a URL *)
  url_error : string → option error;
  (** what the k-th call of [httpClient.Do] returns for a request, after
      [net/http] has followed the redirects of the exchange, if any *)
  http_do : nat → http.Request → http.RoundTrip;
  (** [json.NewDecoder(body).Decode] into a [LlamaStackResponse] *)
  json_decode : string → result LlamaStackResponse;
  (** [Duration.String] *)
  duration_string : Z → string;
  (** the package variable [startTime] of [handlers], read once at
      process start *)
  startTime : time.Time;
}.

(** The counters that select the next answer of the environment. *)
Record State := {
  ticks : nat;             (* clock readings taken so far *)
  calls : nat;             (* calls of httpClient.Do so far *)
}.

Definition initial : State := {| ticks := 0; calls := 0 |}.

(** The result of running a piece of code: it returns, or it panics. *)
Inductive Res (A : Type) : Type :=
| Done (a : A)
| Panic (msg : string).
Arguments Done {A} a.
Arguments Panic {A} msg.

(** A run: its result, the state it leaves, and the events it produced,
    oldest first. *)
Record Outcome (A : Type) : Type := {
  res : Res A;
  final : State;
  events : list Event;
}.
Arguments Build_Outcome {A} _ _ _.
Arguments res {A} _.
Arguments final {A} _.
Arguments events {A} _.

(** Code that reads the environment, threads the state and produces
    events. *)
Definition M (A : Type) : Type := Env → State → Outcome A.

Definition run {A} (m : M A) (env : Env) (s : State) : Outcome A := m env s.

#[global] Instance M_ret : MRet M := λ A a env s,
  {| res := Done a; final := s; events := [] |}.

#[global] Instance M_bind : MBind M := λ A B f m env s,
  let o := m env s in
  match res o with
  | Done a =>
      let o' := f a env (final o) in
      {| res := res o'; final := final o'; events := events o ++ events o' |}
  | Panic msg => {| res := Panic msg; final := final o; events := events o |}
  end.

Definition panic {A} (msg : string) : M A := λ env s,
  {| res := Panic msg; final := s; events := [] |}.

(** Reading the environment. *)
Definition ask {A} (f : Env → A) : M A := λ env s,
  {| res := Done (f env); final := s; events := [] |}.

(** Producing one event. *)
Definition emit (e : Event) : M unit := λ env s,
  {| res := Done (); final := s; events := [e] |}.

(** [time.Now()] *)
Definition time_Now : M time.Time := λ env s,
  let t := clock env (ticks s) in
  {| res := Done t;
     final := {| ticks := S (ticks s); calls := calls s |};
     events := [EvNow t] |}.

(** [time.Since(t)], which is [time.Now().Sub(t)]. *)
Definition time_Since (t : time.Time) : M Z :=
  now ← time_Now; mret (time.Sub now t).

(** A call of the logger at a level. *)
Definition logf (lvl : Level) (format : string) (args : list fmt_arg) : M unit :=
  emit (EvLog lvl format args).

(** [httpClient.Do(req)]: one call of the HTTP client, and what it returns. *)
Definition http_Do (req : http.Request) : M http.RoundTrip := λ env s,
  let r := http_do env (calls s) req in
  {| res := Done r;
     final := {| ticks := ticks s; calls := S (calls s) |};
     events := [EvDo req r] |}.

(** [c.ClientIP()] *)
Definition gin_ClientIP (c : gin.Context) : M string :=
  emit (EvClientIP (gin.RemoteIP c));; mret (gin.RemoteIP c).

(** [c.GetHeader(key)], which is [c.Request.Header.Get(key)]. *)
Definition gin_GetHeader (c : gin.Context) (key : string) : M string :=
  let v := http.Get (gin.Header c) key in
  emit (EvGetHeader key v);; mret v.

(** [c.JSON(code, obj)] *)
Definition gin_JSON (code : Z) (obj : gin.Body) : M unit :=
  emit (EvJSON code obj).

(** A Go expression that panics when it has no value. *)
Definition or_panic {A} (msg : string) (o : option A) : M A :=
  match o with
  | Some a => mret a
  | None => panic msg
  end.

(** ** Package [config] *)

Module config.

Record Config := {
  Address : string;
  Port : string;
  LlamaStackEndpoint : string;
  LlamaStackAPIKey : string;
  EnableAuth : bool;
  LogLevel : string;
  LogJSON : bool;
}.

(** [os.Getenv(key)] on an environment: [""] for an unset variable. *)
Definition Getenv (environ : gmap string string) (key : string) : string :=
  default "" (environ !! key).

Definition getEnvOrDefault (environ : gmap string string)
    (key defaultValue : string) : string :=
  let value := Getenv environ key in
  if negb (gostring.is_empty value) then value else defaultValue.

Definition LoadConfig (environ : gmap string string) : result Config :=
  let cfg := {|
    Address := getEnvOrDefault environ "ADAPTER_ADDRESS" "0.0.0.0";
    Port := getEnvOrDefault environ "ADAPTER_PORT" "8080";
    LlamaStackEndpoint := getEnvOrDefault environ "LLAMASTACK_ENDPOINT" "";
    LlamaStackAPIKey := getEnvOrDefault environ "LLAMASTACK_API_KEY" "";
    EnableAuth := String.eqb (getEnvOrDefault environ "ENABLE_AUTH" "true") "true";
    LogLevel := getEnvOrDefault environ "LOG_LEVEL" "info";
    LogJSON := String.eqb (getEnvOrDefault environ "LOG_JSON" "false") "true";
  |} in
  if gostring.is_empty (LlamaStackEndpoint cfg) then
    Err (Errorf "LLAMASTACK_ENDPOINT is required" [])
  else Ok cfg.

End config.

(** ** Package [llamastack]: the upstream client *)

Module llamastack.

Definition defaultTimeout : Z := 30 * time.Second.
Definition maxRetries : Z := 3.

Definition NewClient (endpoint apiKey : string) : Client :=
  {| endpoint := endpoint; apiKey := apiKey |}.

(** The URL of the models call:
<<
    url := c.endpoint + "/v1/models"
    if c.endpoint[len(c.endpoint)-1:] == "/" { url = c.endpoint + "v1/models" }
>>
    [None] when the slice expression panics. *)
Definition ListModels_url (c : Client) : option string :=
  let url := endpoint c +:+ "/v1/models" in
  last ← gostring.slice_from (endpoint c) (gostring.len (endpoint c) - 1);
  Some (if String.eqb last "/" then endpoint c +:+ "v1/models" else url).

(** The URL of the health call, built the same way. *)
Definition Health_url (c : Client) : option string :=
  let url := endpoint c +:+ "/health" in
  last ← gostring.slice_from (endpoint c) (gostring.len (endpoint c) - 1);
  Some (if String.eqb last "/" then endpoint c +:+ "health" else url).

(** [if c.apiKey != "" { req.Header.Set("Authorization", "Bearer "+c.apiKey) }] *)
Definition with_auth (c : Client) (h : http.Header) : http.Header :=
  if negb (gostring.is_empty (apiKey c))
  then http.Set_ h "Authorization" ("Bearer " +:+ apiKey c)
  else h.

(** One round of the conversion loop: the model of the upstream becomes
    an [openai.Model] stamped with a fresh reading of the clock. *)
Definition convert_one (model : LlamaStackModel) : M openai.Model :=
  now ← time_Now;
  mret {| openai.ID := ID model;
          openai.Object := "model";
          openai.Created := time.Unix now;
          openai.OwnedBy := "llamastack" |}.

(** [for _, model := range ms { ...; openaiModels = append(openaiModels, openaiModel) }] *)
Fixpoint convert (ms : list LlamaStackModel) (openaiModels : slice openai.Model)
    : M (slice openai.Model) :=
  match ms with
  | [] => mret openaiModels
  | model :: rest =>
      openaiModel ← convert_one model;
      convert rest (goslice.append openaiModels openaiModel)
  end.

(** [ListModels] retrieves the models of the upstream and converts them
    to the OpenAI format. *)
Definition ListModels (c : Client) (ctx : http.Context)
    : M (result (slice openai.Model)) :=
  logf Debug "Fetching models from LlamaStack endpoint: %s" [AStr (endpoint c)];;
  url ← or_panic "slice bounds out of range" (ListModels_url c);
  reqErr ← ask (λ env, url_error env url);
  match reqErr with
  | Some err => mret (Err (Errorf "failed to create request: %w" [AErr err]))
  | None =>
    let req := {| http.Ctx := ctx; http.Method := "GET"; http.URL := url;
                  http.ReqHeader :=
                    http.Set_ (with_auth c ∅) "Content-Type" "application/json" |} in
    resp ← http_Do req;
    match resp with
    | http.DoError err =>
        mret (Err (Errorf "failed to make request to LlamaStack: %w" [AErr err]))
    | http.DoResponse StatusCode body =>
        if negb (StatusCode =? http.StatusOK) then
          mret (Err (Errorf "LlamaStack returned status %d: %s"
                            [AInt StatusCode; AStr body]))
        else
          decoded ← ask (λ env, json_decode env body);
          match decoded with
          | Err err =>
              mret (Err (Errorf "failed to decode LlamaStack response: %w" [AErr err]))
          | Ok llamaResponse =>
              openaiModels ← convert (goslice.elems (Models llamaResponse))
                                     (goslice.make (goslice.len (Models llamaResponse)));
              logf Debug "Successfully converted %d LlamaStack models to OpenAI format"
                   [AInt (goslice.len openaiModels)];;
              mret (Ok openaiModels)
          end
    end
  end.

(** [Health] checks that the upstream is accessible. *)
Definition Health (c : Client) (ctx : http.Context) : M (option error) :=
  url ← or_panic "slice bounds out of range" (Health_url c);
  reqErr ← ask (λ env, url_error env url);
  match reqErr with
  | Some err =>
      mret (Some (Errorf "failed to create health check request: %w" [AErr err]))
  | None =>
    let req := {| http.Ctx := ctx; http.Method := "GET"; http.URL := url;
                  http.ReqHeader := with_auth c ∅ |} in
    resp ← http_Do req;
    match resp with
    | http.DoError err =>
        mret (Some (Errorf "health check failed: %w" [AErr err]))
    | http.DoResponse StatusCode _ =>
        if (200 <=? StatusCode) && (StatusCode <? 300) then mret None
        else mret (Some (Errorf "health check returned status %d" [AInt StatusCode]))
    end
  end.

End llamastack.

(** ** Package [handlers] *)

Module handlers.

Record ModelsHandler := {
  llamaClient : Client;
  enableAuth : bool;
}.

Record HealthHandler := {
  health_llamaClient : Client;
}.

Definition NewModelsHandler (llamaClient : Client) (enableAuth : bool) : ModelsHandler :=
  {| llamaClient := llamaClient; enableAuth := enableAuth |}.

Definition NewHealthHandler (llamaClient : Client) : HealthHandler :=
  {| health_llamaClient := llamaClient |}.

Definition min (a b : Z) : Z := if a <? b then a else b.

(** [validateAuth] validates the bearer token of the Authorization
    header. *)
Definition validateAuth (h : ModelsHandler) (c : gin.Context) : M (option error) :=
  authHeader ← gin_GetHeader c "Authorization";
  if gostring.is_empty authHeader then
    mret (Some (AuthError "Missing Authorization header"))
  else if negb (gostring.HasPrefix authHeader "Bearer ") then
    mret (Some (AuthError "Invalid Authorization header format"))
  else
    let token := gostring.TrimPrefix authHeader "Bearer " in
    if gostring.is_empty token then
      mret (Some (AuthError "Empty token"))
    else
      shown ← or_panic "slice bounds out of range"
                (gostring.slice_to token (min (gostring.len token) 10));
      logf Debug "Validated token: %s..." [AStr shown];;
      mret None.

(** The second half of [HandleListModels], after the authentication
    block: the upstream call under a 30 second ceiling and the reply. *)
Definition HandleListModels_fetch (h : ModelsHandler) (c : gin.Context)
    (startTime : time.Time) : M unit :=
  let ctx := http.WithTimeout (gin.RequestContext c) (30 * time.Second) in
  fetched ← llamastack.ListModels (llamaClient h) ctx;
  match fetched with
  | Err err =>
      logf Error "Failed to fetch models from LlamaStack: %v" [AErr err];;
      gin_JSON http.StatusInternalServerError
        (gin.JError (models.NewErrorResponse
           "Failed to retrieve models from external service"
           "internal_error"))
  | Ok llamaModels =>
      let response := models.NewModelsResponse llamaModels in
      duration ← time_Since startTime;
      logf Info "Successfully returned %d models in %v"
           [AInt (goslice.len llamaModels); ADuration duration];;
      gin_JSON http.StatusOK (gin.JModels response)
  end.

(** [HandleListModels] handles [GET /v1/models]. *)
Definition HandleListModels (h : ModelsHandler) (c : gin.Context) : M unit :=
  startTime ← time_Now;
  ip ← gin_ClientIP c;
  logf Info "Received models list request from %s" [AStr ip];;
  if enableAuth h then
    authErr ← validateAuth h c;
    match authErr with
    | Some err =>
        logf Warn "Authentication failed: %v" [AErr err];;
        gin_JSON http.StatusUnauthorized
          (gin.JError (models.NewErrorResponse
             "Authentication required"
             "authentication_error"))
    | None => HandleListModels_fetch h c startTime
    end
  else HandleListModels_fetch h c startTime.

(** [HandleHealth] handles [GET /health]. *)
Definition HandleHealth (h : HealthHandler) (c : gin.Context) : M unit :=
  let ctx := http.WithTimeout (gin.RequestContext c) (10 * time.Second) in
  now ← time_Now;
  started ← ask startTime;
  uptime ← time_Since started;
  uptimeString ← ask (λ env, duration_string env uptime);
  let response := {| Status := ""; Timestamp := now; Services := ∅;
                     Uptime := uptimeString; Version := "1.0.0" |} in
  healthErr ← llamastack.Health (health_llamaClient h) ctx;
  match healthErr with
  | Some err =>
      logf Warn "LlamaStack health check failed: %v" [AErr err];;
      gin_JSON http.StatusServiceUnavailable
        (gin.JHealth {| Status := "unhealthy"; Timestamp := Timestamp response;
                        Services := <["llamastack" := "down"]> (Services response);
                        Uptime := Uptime response; Version := Version response |})
  | None =>
      gin_JSON http.StatusOK
        (gin.JHealth {| Status := "healthy"; Timestamp := Timestamp response;
                        Services := <["llamastack" := "up"]> (Services response);
                        Uptime := Uptime response; Version := Version response |})
  end.

(** [HandleReadiness] handles [GET /ready]. *)
Definition HandleReadiness (h : HealthHandler) (c : gin.Context) : M unit :=
  let ctx := http.WithTimeout (gin.RequestContext c) (5 * time.Second) in
  healthErr ← llamastack.Health (health_llamaClient h) ctx;
  match healthErr with
  | Some err =>
      logf Debug "Readiness check failed: %v" [AErr err];;
      gin_JSON http.StatusServiceUnavailable
        (gin.JH (<["ready" := gin.HBool false]>
                 (<["reason" := gin.HString "llamastack_unavailable"]> ∅)))
  | None =>
      gin_JSON http.StatusOK (gin.JH (<["ready" := gin.HBool true]> ∅))
  end.

(** [HandleLiveness] handles [GET /live]. *)
Definition HandleLiveness (h : HealthHandler) (c : gin.Context) : M unit :=
  now ← time_Now;
  gin_JSON http.StatusOK
    (gin.JH (<["alive" := gin.HBool true]> (<["timestamp" := gin.HTime now]> ∅))).

End handlers.

(** ** What [encoding/json] writes *)

Module json.

(** The top-level keys of the JSON object written for a body: the tags
    of the struct's fields (a field tagged [omitempty] is left out when
    empty), or the keys of the map. *)
Definition keys (b : gin.Body) : gset string :=
  match b with
  | gin.JModels _ => {[ "object"; "data" ]}
  | gin.JError _ => {[ "error" ]}
  | gin.JHealth r =>
      {[ "status"; "timestamp"; "services" ]}
      ∪ (if gostring.is_empty (Version r) then ∅ else {[ "version" ]})
      ∪ (if gostring.is_empty (Uptime r) then ∅ else {[ "uptime" ]})
  | gin.JH h => dom h
  end.

(** Whether a slice is written as [null] rather than as an array. *)
Definition is_null {A} (s : slice A) : bool :=
  match s with nil_slice => true | mk_slice _ => false end.

End json.

(** ** Reading a run *)

(** The replies written with [c.JSON], in order. *)
Definition written (evs : list Event) : list (Z * gin.Body) :=
  omap (λ e, match e with EvJSON code obj => Some (code, obj) | _ => None end) evs.

(** The outbound requests, in order: the requests handed to
    [httpClient.Do]. *)
Definition outbound (evs : list Event) : list http.Request :=
  omap (λ e, match e with EvDo req _ => Some req | _ => None end) evs.

(** The answers to the outbound requests, in order: what the calls of
    [httpClient.Do] returned. *)
Definition answers (evs : list Event) : list http.RoundTrip :=
  omap (λ e, match e with EvDo _ r => Some r | _ => None end) evs.

(** The headers read from the inbound request, in order. *)
Definition headers_read (evs : list Event) : list string :=
  omap (λ e, match e with EvGetHeader key _ => Some key | _ => None end) evs.

(** The clock readings taken, in order. *)
Definition readings (evs : list Event) : list time.Time :=
  omap (λ e, match e with EvNow t => Some t | _ => None end) evs.

(** ** Vocabulary of the statements *)

(** The request [ListModels] sends to a URL. *)
Definition ListModels_request (c : Client) (ctx : http.Context) (url : string)
    : http.Request :=
  {| http.Ctx := ctx; http.Method := "GET"; http.URL := url;
     http.ReqHeader :=
       http.Set_ (llamastack.with_auth c ∅) "Content-Type" "application/json" |}.

(** The request [Health] sends to a URL. *)
Definition Health_request (c : Client) (ctx : http.Context) (url : string)
    : http.Request :=
  {| http.Ctx := ctx; http.Method := "GET"; http.URL := url;
     http.ReqHeader := llamastack.with_auth c ∅ |}.

(** The public record of an upstream model translated at the k-th reading
    of the clock. *)
Definition stamped (env : Env) (k : nat) (model : LlamaStackModel) : openai.Model :=
  {| openai.ID := ID model;
     openai.Object := "model";
     openai.Created := time.Unix (clock env k);
     openai.OwnedBy := "llamastack" |}.

(** An error of [ListModels] that reports the status of the upstream. *)
Definition is_status_error (e : error) (code : Z) : Prop :=
  ∃ body, e = Errorf "LlamaStack returned status %d: %s" [AInt code; AStr body].

(** A status code of the 2xx class. *)
Definition is_2xx (code : Z) : Prop := 200 ≤ code < 300.

(** The two error envelopes of the models handler. *)
Definition authentication_error : gin.Body :=
  gin.JError {| models.Error_ :=
    {| models.Message := "Authentication required";
       models.Type_ := "authentication_error";
       models.Code := "" |} |}.

Definition internal_error : gin.Body :=
  gin.JError {| models.Error_ :=
    {| models.Message := "Failed to retrieve models from external service";
       models.Type_ := "internal_error";
       models.Code := "" |} |}.

(** The same inbound request with other headers. *)
Definition with_header (c : gin.Context) (header : http.Header) : gin.Context :=
  {| gin.Header := header;
     gin.RequestContext := gin.RequestContext c;
     gin.RemoteIP := gin.RemoteIP c |}.

(** A string ends with a slash. *)
Definition ends_with_slash (s : string) : Prop := ∃ b, s = b +:+ "/".

(** An event that the upstream client can produce: a log line, an outbound
    request or a clock reading. *)
Definition client_event (e : Event) : Prop :=
  match e with
  | EvLog _ _ _ | EvDo _ _ | EvNow _ => True
  | _ => False
  end.

(** ** A sample world, for concrete runs *)

Module sample.

(** A clock that advances one second per reading. *)
Definition ticking (k : nat) : time.Time :=
  {| time.wall_sec := 1700000000 + Z.of_nat k;
     time.wall_nsec := 0;
     time.mono := Z.of_nat k * time.Second |}.

(** An environment whose HTTP client always returns the same answer and whose
    decoder reads every body as the given response. *)
Definition env (answer : http.RoundTrip) (decoded : result LlamaStackResponse) : Env :=
  {| clock := ticking;
     url_error := λ _, None;
     http_do := λ _ _, answer;
     json_decode := λ _, decoded;
     duration_string := λ d, if d =? 0 then "0s" else "1s";
     startTime := ticking 0 |}.

Definition llama (id provider : string) : LlamaStackModel :=
  {| ID := id; Name := ""; Description := ""; Provider := provider; Type_ := "" |}.

Definition two_models : LlamaStackResponse :=
  {| Models := mk_slice [llama "llama-3.1-8b" "meta"; llama "granite-7b" "ibm"] |}.

Definition client : Client :=
  llamastack.NewClient "http://llamastack:8321" "secret".

Definition request (h : http.Header) : gin.Context :=
  {| gin.Header := h; gin.RequestContext := http.Background;
     gin.RemoteIP := "10.0.0.7" |}.

End sample.

(** ** Package [main]: wiring and middleware *)

Module adapter.

(** The handlers as [main] builds them from a loaded configuration:
<<
    llamaClient := llamastack.NewClient(cfg.LlamaStackEndpoint, cfg.LlamaStackAPIKey, log)
    modelsHandler := handlers.NewModelsHandler(llamaClient, log, cfg.EnableAuth)
    healthHandler := handlers.NewHealthHandler(llamaClient, log)
>> *)
Definition llamaClient (cfg : config.Config) : Client :=
  llamastack.NewClient (config.LlamaStackEndpoint cfg) (config.LlamaStackAPIKey cfg).

Definition modelsHandler (cfg : config.Config) : handlers.ModelsHandler :=
  handlers.NewModelsHandler (llamaClient cfg) (config.EnableAuth cfg).

Definition healthHandler (cfg : config.Config) : handlers.HealthHandler :=
  handlers.NewHealthHandler (llamaClient cfg).

(** What a middleware leaves behind: the headers it set on the reply, and
    the status it aborted the chain with, if it did. *)
Record Passed := {
  ReplyHeader : gmap string string;
  Aborted : option Z;
}.

(** [corsMiddleware]: three headers on every reply; an [OPTIONS] request
    is answered at once with [AbortWithStatus(200)], any other request goes
    on to the rest of the chain with [c.Next()]. *)
Definition corsMiddleware (method : string) (next : M unit) : M Passed :=
  let header :=
    <["Access-Control-Allow-Headers" := "Origin, Content-Type, Authorization"]>
      (<["Access-Control-Allow-Methods" := "GET, POST, OPTIONS"]>
         (<["Access-Control-Allow-Origin" := "*"]> ∅)) in
  if String.eqb method "OPTIONS" then
    mret {| ReplyHeader := header; Aborted := Some http.StatusOK |}
  else
    next;;
    mret {| ReplyHeader := header; Aborted := None |}.

End adapter.

(** ** More vocabulary *)

(** The calls of the logger, in order. *)
Definition logged (evs : list Event) : list (Level * string * list fmt_arg) :=
  omap (λ e, match e with
             | EvLog lvl format args => Some (lvl, format, args)
             | _ => None
             end) evs.

(** A string starts with another. *)
Definition starts_with (s p : string) : Prop := ∃ rest, s = p +:+ rest.

(** The clock never goes back, in Unix seconds. *)
Definition clock_monotone (env : Env) : Prop :=
  ∀ i j, (i ≤ j)%nat → time.Unix (clock env i) ≤ time.Unix (clock env j).

(** * Properties *)

(** ** Strings *)

Section strings.

Lemma drop_append (b t : string) :
  gostring.drop (String.length b) (b +:+ t) = t.
Proof. induction b as [|a b IH]; simpl; [reflexivity | exact IH]. Qed.

Lemma length_append (b t : string) :
  String.length (b +:+ t) = (String.length b + String.length t)%nat.
Proof. induction b as [|a b IH]; simpl; [reflexivity | by rewrite IH]. Qed.

Lemma is_empty_true (s : string) : gostring.is_empty s = true ↔ s = "".
Proof. destruct s; simpl; split; intros; congruence. Qed.

Lemma is_empty_false (s : string) : gostring.is_empty s = false ↔ s ≠ "".
Proof. destruct s; simpl; split; intros; congruence. Qed.

(** A string that is not empty has a last byte. *)
Lemma string_snoc (s : string) :
  s ≠ "" → ∃ b a, s = b +:+ String a "".
Proof.
  induction s as [|x s IH]; intros Hne; [congruence|].
  destruct s as [|y s].
  - exists "", x. reflexivity.
  - destruct IH as (b & a & Hs); [congruence|].
    exists (String x b), a. simpl. by rewrite Hs.
Qed.

(** The slice [s[len(s)-1:]] of a string with a last byte is that byte. *)
Lemma slice_last (b : string) (a : ascii) :
  gostring.slice_from (b +:+ String a "") (gostring.len (b +:+ String a "") - 1)
  = Some (String a "").
Proof.
  unfold gostring.slice_from, gostring.len.
  rewrite length_append. simpl String.length.
  generalize (drop_append b (String a "")).
  generalize (String.length b). intros n Hdrop.
  replace (Z.of_nat (n + 1)%nat - 1) with (Z.of_nat n) by lia.
  rewrite Nat2Z.id, Hdrop.
  rewrite (proj2 (Z.leb_le 0 (Z.of_nat n))) by lia.
  rewrite (proj2 (Z.leb_le (Z.of_nat n) (Z.of_nat (n + 1)%nat))) by lia.
  reflexivity.
Qed.

(** The same slice of the empty string is out of range. *)
Lemma slice_last_empty :
  gostring.slice_from "" (gostring.len "" - 1) = None.
Proof. reflexivity. Qed.

End strings.

(** ** The request URL *)

Section request_url.

Lemma ListModels_url_snoc (b : string) (a : ascii) (key : string) :
  llamastack.ListModels_url {| endpoint := b +:+ String a ""; apiKey := key |}
  = Some (if String.eqb (String a "") "/"
          then (b +:+ String a "") +:+ "v1/models"
          else (b +:+ String a "") +:+ "/v1/models").
Proof. unfold llamastack.ListModels_url. simpl endpoint. by rewrite slice_last. Qed.

Lemma Health_url_snoc (b : string) (a : ascii) (key : string) :
  llamastack.Health_url {| endpoint := b +:+ String a ""; apiKey := key |}
  = Some (if String.eqb (String a "") "/"
          then (b +:+ String a "") +:+ "health"
          else (b +:+ String a "") +:+ "/health").
Proof. unfold llamastack.Health_url. simpl endpoint. by rewrite slice_last. Qed.

Lemma last_not_slash (b : string) (a : ascii) :
  ¬ ends_with_slash (b +:+ String a "") → String.eqb (String a "") "/" = false.
Proof.
  intros Hno. apply String.eqb_neq. intros Heq. apply Hno.
  exists b. by rewrite Heq.
Qed.

End request_url.

(** ** Running the monad *)

Ltac run_unfold :=
  unfold run, mbind, M_bind, mret, M_ret, or_panic, panic, ask, logf,
    gin_JSON, gin_ClientIP, gin_GetHeader, emit, http_Do, time_Since, time_Now.

Section runs.

Lemma run_bind {A B} (m : M A) (f : A → M B) env s :
  run (m ≫= f) env s =
  match res (run m env s) with
  | Done a =>
      {| res := res (run (f a) env (final (run m env s)));
         final := final (run (f a) env (final (run m env s)));
         events := events (run m env s) ++ events (run (f a) env (final (run m env s))) |}
  | Panic msg =>
      {| res := Panic msg; final := final (run m env s);
         events := events (run m env s) |}
  end.
Proof. reflexivity. Qed.

Lemma written_app (e1 e2 : list Event) : written (e1 ++ e2) = written e1 ++ written e2.
Proof. apply omap_app. Qed.

Lemma outbound_app (e1 e2 : list Event) : outbound (e1 ++ e2) = outbound e1 ++ outbound e2.
Proof. apply omap_app. Qed.

Lemma headers_read_app (e1 e2 : list Event) :
  headers_read (e1 ++ e2) = headers_read e1 ++ headers_read e2.
Proof. apply omap_app. Qed.

Lemma answers_app (e1 e2 : list Event) : answers (e1 ++ e2) = answers e1 ++ answers e2.
Proof. apply omap_app. Qed.

Lemma readings_app (e1 e2 : list Event) : readings (e1 ++ e2) = readings e1 ++ readings e2.
Proof. apply omap_app. Qed.

(** The events of the client are neither replies nor header reads. *)
Lemma client_events_written (evs : list Event) :
  Forall client_event evs → written evs = [].
Proof.
  induction 1 as [|e evs He _ IH]; [reflexivity|].
  destruct e; simpl in *; try contradiction; exact IH.
Qed.

Lemma client_events_headers_read (evs : list Event) :
  Forall client_event evs → headers_read evs = [].
Proof.
  induction 1 as [|e evs He _ IH]; [reflexivity|].
  destruct e; simpl in *; try contradiction; exact IH.
Qed.

End runs.

(** ** The conversion loop *)

Section conversion.

(** The loop appends one stamped record per upstream model, in order,
    each with its own clock reading. *)
Lemma convert_run (ms : list LlamaStackModel) :
  ∀ (l : list openai.Model) env s,
    run (llamastack.convert ms (mk_slice l)) env s =
    {| res := Done (mk_slice (l ++ imap (λ i, stamped env (ticks s + i)) ms));
       final := {| ticks := ticks s + length ms; calls := calls s |};
       events := imap (λ i _, EvNow (clock env (ticks s + i))) ms |}.
Proof.
  induction ms as [|m rest IH]; intros l env s.
  - simpl. unfold run, mret, M_ret. rewrite app_nil_r, Nat.add_0_r.
    by destruct s.
  - simpl llamastack.convert. rewrite run_bind.
    unfold llamastack.convert_one at 1 2 3. run_unfold. simpl.
    unfold goslice.append. simpl goslice.elems.
    fold (run (llamastack.convert rest
                 (mk_slice (l ++ [{| openai.ID := ID m;
                                     openai.Created := time.Unix (clock env (ticks s));
                                     openai.Object := "model";
                                     openai.OwnedBy := "llamastack" |}])))
              env {| ticks := S (ticks s); calls := calls s |}).
    rewrite IH. simpl. rewrite Nat.add_0_r. f_equal.
    + f_equal. f_equal. rewrite <- app_assoc. simpl. f_equal. f_equal.
      apply imap_ext. intros i x _. simpl. by rewrite Nat.add_succ_r.
    + f_equal. lia.
    + f_equal. apply imap_ext. intros i x _. simpl. by rewrite Nat.add_succ_r.
Qed.

End conversion.

(** ** [ListModels] *)

Section list_models.

Variables (env : Env) (s : State) (c : Client) (ctx : http.Context).

Let fetching : Event :=
  EvLog Debug "Fetching models from LlamaStack endpoint: %s" [AStr (endpoint c)].

(** Every path of [ListModels], spelled out. *)
Lemma ListModels_run :
  run (llamastack.ListModels c ctx) env s =
  match llamastack.ListModels_url c with
  | None =>
      {| res := Panic "slice bounds out of range"; final := s; events := [fetching] |}
  | Some url =>
      match url_error env url with
      | Some err =>
          {| res := Done (Err (Errorf "failed to create request: %w" [AErr err]));
             final := s; events := [fetching] |}
      | None =>
          let req := ListModels_request c ctx url in
          let s' := {| ticks := ticks s; calls := S (calls s) |} in
          match http_do env (calls s) req with
          | http.DoError err =>
              {| res := Done (Err (Errorf "failed to make request to LlamaStack: %w"
                                          [AErr err]));
                 final := s'; events := [fetching; EvDo req (http.DoError err)] |}
          | http.DoResponse code body =>
              if code =? 200 then
                match json_decode env body with
                | Err err =>
                    {| res := Done (Err (Errorf "failed to decode LlamaStack response: %w"
                                                [AErr err]));
                       final := s';
                       events := [fetching; EvDo req (http.DoResponse code body)] |}
                | Ok upstream =>
                    let ms := goslice.elems (Models upstream) in
                    {| res := Done (Ok (mk_slice (imap (λ i, stamped env (ticks s + i)) ms)));
                       final := {| ticks := ticks s + length ms; calls := S (calls s) |};
                       events :=
                         [fetching; EvDo req (http.DoResponse code body)]
                         ++ imap (λ i _, EvNow (clock env (ticks s + i))) ms
                         ++ [EvLog Debug
                               "Successfully converted %d LlamaStack models to OpenAI format"
                               [AInt (Z.of_nat (length ms))]] |}
                end
              else
                {| res := Done (Err (Errorf "LlamaStack returned status %d: %s"
                                            [AInt code; AStr body]));
                   final := s';
                   events := [fetching; EvDo req (http.DoResponse code body)] |}
          end
      end
  end.
Proof.
  unfold llamastack.ListModels. run_unfold.
  destruct (llamastack.ListModels_url c) as [url|]; simpl; [|reflexivity].
  destruct (url_error env url) as [err|]; simpl; [reflexivity|].
  unfold ListModels_request.
  destruct (http_do env (calls s) _) as [err|code body]; simpl; [reflexivity|].
  unfold http.StatusOK.
  destruct (code =? 200); simpl; [|reflexivity].
  destruct (json_decode env body) as [upstream|err]; simpl; [|reflexivity].
  pose proof (convert_run (goslice.elems (Models upstream)) []
                env {| ticks := ticks s; calls := S (calls s) |}) as Hloop.
  unfold run in Hloop. unfold goslice.make. rewrite Hloop. simpl.
  unfold goslice.len. simpl. by rewrite length_imap.
Qed.

End list_models.

(** ** [Health] *)

Section health.

Variables (env : Env) (s : State) (c : Client) (ctx : http.Context).

(** Every path of [Health], spelled out. *)
Lemma Health_run :
  run (llamastack.Health c ctx) env s =
  match llamastack.Health_url c with
  | None => {| res := Panic "slice bounds out of range"; final := s; events := [] |}
  | Some url =>
      match url_error env url with
      | Some err =>
          {| res := Done (Some (Errorf "failed to create health check request: %w"
                                       [AErr err]));
             final := s; events := [] |}
      | None =>
          let req := Health_request c ctx url in
          let s' := {| ticks := ticks s; calls := S (calls s) |} in
          match http_do env (calls s) req with
          | http.DoError err =>
              {| res := Done (Some (Errorf "health check failed: %w" [AErr err]));
                 final := s'; events := [EvDo req (http.DoError err)] |}
          | http.DoResponse code body =>
              {| res := Done (if (200 <=? code) && (code <? 300) then None
                              else Some (Errorf "health check returned status %d"
                                                [AInt code]));
                 final := s'; events := [EvDo req (http.DoResponse code body)] |}
          end
      end
  end.
Proof.
  unfold llamastack.Health. run_unfold.
  destruct (llamastack.Health_url c) as [url|]; simpl; [|reflexivity].
  destruct (url_error env url) as [err|]; simpl; [reflexivity|].
  unfold Health_request.
  destruct (http_do env (calls s) _) as [err|code body]; simpl; [reflexivity|].
  by destruct ((200 <=? code) && (code <? 300)).
Qed.

(** [Health] produces client events only, and does not touch the clock. *)
Lemma Health_client_events :
  Forall client_event (events (run (llamastack.Health c ctx) env s)).
Proof.
  rewrite Health_run.
  destruct (llamastack.Health_url c) as [url|]; simpl; [|constructor].
  destruct (url_error env url) as [err|]; simpl; [constructor|].
  destruct (http_do env (calls s) _) as [err|code body]; simpl;
    repeat constructor.
Qed.

End health.

(** ** Events of the conversion loop *)

Section loop_events.

Context {A : Type}.

Lemma outbound_readings (f : nat → time.Time) (l : list A) :
  outbound (imap (λ i _, EvNow (f i)) l) = [].
Proof. revert f. induction l as [|x l IH]; intros f; [reflexivity|]. apply (IH (f ∘ S)). Qed.

Lemma written_readings (f : nat → time.Time) (l : list A) :
  written (imap (λ i _, EvNow (f i)) l) = [].
Proof. revert f. induction l as [|x l IH]; intros f; [reflexivity|]. apply (IH (f ∘ S)). Qed.

Lemma headers_read_readings (f : nat → time.Time) (l : list A) :
  headers_read (imap (λ i _, EvNow (f i)) l) = [].
Proof. revert f. induction l as [|x l IH]; intros f; [reflexivity|]. apply (IH (f ∘ S)). Qed.

Lemma answers_readings (f : nat → time.Time) (l : list A) :
  answers (imap (λ i _, EvNow (f i)) l) = [].
Proof. revert f. induction l as [|x l IH]; intros f; [reflexivity|]. apply (IH (f ∘ S)). Qed.

Lemma readings_readings (f : nat → time.Time) (l : list A) :
  readings (imap (λ i _, EvNow (f i)) l) = imap (λ i _, f i) l.
Proof.
  revert f. induction l as [|x l IH]; intros f; [reflexivity|].
  simpl. f_equal. apply (IH (f ∘ S)).
Qed.

Lemma client_event_readings (f : nat → time.Time) (l : list A) :
  Forall client_event (imap (λ i _, EvNow (f i)) l).
Proof.
  revert f. induction l as [|x l IH]; intros f; [constructor|].
  constructor; [exact I | apply (IH (f ∘ S))].
Qed.

End loop_events.

(** ** What the client does to the outside *)

Section client_effects.

Variables (env : Env) (s : State) (c : Client) (ctx : http.Context).

Lemma ListModels_client_events :
  Forall client_event (events (run (llamastack.ListModels c ctx) env s)).
Proof.
  rewrite ListModels_run.
  destruct (llamastack.ListModels_url c) as [url|]; simpl; [|repeat constructor].
  destruct (url_error env url) as [err|]; simpl; [repeat constructor|].
  destruct (http_do env (calls s) _) as [err|code body]; simpl; [repeat constructor|].
  destruct (code =? 200); simpl; [|repeat constructor].
  destruct (json_decode env body) as [upstream|err]; simpl; [|repeat constructor].
  constructor; [exact I|]. constructor; [exact I|].
  apply Forall_app. split; [apply client_event_readings | repeat constructor].
Qed.

(** [ListModels] makes at most one outbound request, to its URL. *)
Lemma ListModels_outbound :
  outbound (events (run (llamastack.ListModels c ctx) env s)) = []
  ∨ ∃ url, llamastack.ListModels_url c = Some url
           ∧ outbound (events (run (llamastack.ListModels c ctx) env s))
             = [ListModels_request c ctx url].
Proof.
  rewrite ListModels_run.
  destruct (llamastack.ListModels_url c) as [url|]; simpl; [|by left].
  destruct (url_error env url) as [err|]; simpl; [by left|].
  right. exists url. split; [reflexivity|].
  destruct (http_do env (calls s) _) as [err|code body]; simpl; [reflexivity|].
  destruct (code =? 200); simpl; [|reflexivity].
  destruct (json_decode env body) as [upstream|err]; simpl; [|reflexivity].
  by rewrite outbound_app, outbound_readings.
Qed.

(** [Health] makes at most one outbound request, to its URL. *)
Lemma Health_outbound :
  outbound (events (run (llamastack.Health c ctx) env s)) = []
  ∨ ∃ url, llamastack.Health_url c = Some url
           ∧ outbound (events (run (llamastack.Health c ctx) env s))
             = [Health_request c ctx url].
Proof.
  rewrite Health_run.
  destruct (llamastack.Health_url c) as [url|]; simpl; [|by left].
  destruct (url_error env url) as [err|]; simpl; [by left|].
  right. exists url. split; [reflexivity|].
  by destruct (http_do env (calls s) _) as [err|code body].
Qed.

(** When its URL is accepted, [ListModels] hands exactly one request to
    the HTTP client, whatever comes back. *)
Lemma ListModels_outbound_exact (url : string) :
  llamastack.ListModels_url c = Some url →
  url_error env url = None →
  outbound (events (run (llamastack.ListModels c ctx) env s))
  = [ListModels_request c ctx url].
Proof.
  intros Hurl Hreq. rewrite ListModels_run, Hurl, Hreq. simpl.
  destruct (http_do env (calls s) _) as [err|code body]; simpl; [reflexivity|].
  destruct (code =? 200); simpl; [|reflexivity].
  destruct (json_decode env body) as [upstream|err]; simpl; [|reflexivity].
  by rewrite outbound_app, outbound_readings.
Qed.

(** When its URL is accepted, [Health] hands exactly one request to the
    HTTP client, whatever comes back. *)
Lemma Health_outbound_exact (url : string) :
  llamastack.Health_url c = Some url →
  url_error env url = None →
  outbound (events (run (llamastack.Health c ctx) env s))
  = [Health_request c ctx url].
Proof.
  intros Hurl Hreq. rewrite Health_run, Hurl, Hreq. simpl.
  by destruct (http_do env (calls s) _) as [err|code body].
Qed.

End client_effects.

(** ** The request URL: one slash between base and path *)

Section url_claims.

Lemma append_assoc (a b c : string) : (a +:+ b) +:+ c = a +:+ (b +:+ c).
Proof.
  induction a as [|x a IH]; [reflexivity|].
  change (String x ((a +:+ b) +:+ c) = String x (a +:+ (b +:+ c))).
  by rewrite IH.
Qed.

Lemma ends_with_slash_snoc (b : string) : ends_with_slash (b +:+ "/").
Proof. by exists b. Qed.

(** The URLs of a base without a trailing slash. *)
Lemma url_bare (b key : string) :
  b ≠ "" → ¬ ends_with_slash b →
  llamastack.ListModels_url {| endpoint := b; apiKey := key |}
    = Some (b +:+ "/v1/models")
  ∧ llamastack.Health_url {| endpoint := b; apiKey := key |}
    = Some (b +:+ "/health").
Proof.
  intros Hne Hno. destruct (string_snoc b Hne) as (b0 & a & ->).
  rewrite ListModels_url_snoc, Health_url_snoc, (last_not_slash _ _ Hno). done.
Qed.

(** The URLs of a base with a trailing slash. *)
Lemma url_slashed (b key : string) :
  llamastack.ListModels_url {| endpoint := b +:+ "/"; apiKey := key |}
    = Some (b +:+ "/v1/models")
  ∧ llamastack.Health_url {| endpoint := b +:+ "/"; apiKey := key |}
    = Some (b +:+ "/health").
Proof.
  rewrite ListModels_url_snoc, Health_url_snoc. simpl.
  by rewrite !append_assoc.
Qed.

End url_claims.

(** A base that ends with two slashes: one slash is dropped, the other
    stays, so the URL differs from that of the base with one slash and has
    two slashes before the path. *)
Lemma double_slash_base_differs :
  llamastack.ListModels_url (llamastack.NewClient "http://h/" "")
    = Some "http://h/v1/models"
  ∧ llamastack.ListModels_url (llamastack.NewClient "http://h//" "")
    = Some "http://h//v1/models"
  ∧ llamastack.Health_url (llamastack.NewClient "http://h/" "")
    = Some "http://h/health"
  ∧ llamastack.Health_url (llamastack.NewClient "http://h//" "")
    = Some "http://h//health"
  ∧ "http://h/v1/models" ≠ "http://h//v1/models"
  ∧ "http://h/health" ≠ "http://h//health".
Proof. repeat split; (reflexivity || discriminate). Qed.

(** C6, for a base that does not end with a slash: for every base URL [b]
    that is not empty and does not end with a slash, configured as [b] or
    as [b/], the URL of the models call is [b/v1/models] and the URL of
    the health call is [b/health]: the two spellings give the same URL,
    with exactly one slash between the base and the path.  When the URL is
    accepted, [ListModels] and [Health] hand exactly one request to the
    HTTP client, and it goes to that URL.  One trailing slash is dropped
    and no more: for any [e], the base [e/] gives [e/v1/models] and
    [e/health], whatever [e] ends with. *)
Theorem request_url_trailing_slash (b key : string) :
  b ≠ "" → ¬ ends_with_slash b →
  let bare := {| endpoint := b; apiKey := key |} in
  let slashed := {| endpoint := b +:+ "/"; apiKey := key |} in
  llamastack.ListModels_url bare = Some (b +:+ "/" +:+ "v1/models")
  ∧ llamastack.ListModels_url slashed = Some (b +:+ "/" +:+ "v1/models")
  ∧ llamastack.Health_url bare = Some (b +:+ "/" +:+ "health")
  ∧ llamastack.Health_url slashed = Some (b +:+ "/" +:+ "health")
  ∧ (∀ env s ctx c, c = bare ∨ c = slashed →
       (url_error env (b +:+ "/" +:+ "v1/models") = None →
        outbound (events (run (llamastack.ListModels c ctx) env s))
        = [ListModels_request c ctx (b +:+ "/" +:+ "v1/models")])
       ∧ (url_error env (b +:+ "/" +:+ "health") = None →
          outbound (events (run (llamastack.Health c ctx) env s))
          = [Health_request c ctx (b +:+ "/" +:+ "health")])
       ∧ (∀ req, req ∈ outbound (events (run (llamastack.ListModels c ctx) env s)) →
                 http.URL req = b +:+ "/" +:+ "v1/models")
       ∧ (∀ req, req ∈ outbound (events (run (llamastack.Health c ctx) env s)) →
                 http.URL req = b +:+ "/" +:+ "health"))
  ∧ (∀ e k,
       llamastack.ListModels_url {| endpoint := e +:+ "/"; apiKey := k |}
         = Some (e +:+ "/" +:+ "v1/models")
       ∧ llamastack.Health_url {| endpoint := e +:+ "/"; apiKey := k |}
         = Some (e +:+ "/" +:+ "health")).
Proof.
  intros Hne Hno bare slashed.
  destruct (url_bare b key Hne Hno) as [Hm Hh].
  destruct (url_slashed b key) as [Hms Hhs].
  split; [exact Hm|]. split; [exact Hms|]. split; [exact Hh|]. split; [exact Hhs|].
  split; [|intros e k; apply url_slashed].
  intros env s ctx c Hc.
  assert (Hcm : llamastack.ListModels_url c = Some (b +:+ "/v1/models"))
    by (destruct Hc as [-> | ->]; assumption).
  assert (Hch : llamastack.Health_url c = Some (b +:+ "/health"))
    by (destruct Hc as [-> | ->]; assumption).
  split; [|split; [|split]].
  - intros Hok. exact (ListModels_outbound_exact env s c ctx _ Hcm Hok).
  - intros Hok. exact (Health_outbound_exact env s c ctx _ Hch Hok).
  - intros req Hin.
    destruct (ListModels_outbound env s c ctx) as [Hnone | (url & Hurl & Hout)];
      rewrite ?Hnone, ?Hout in Hin; [by apply elem_of_nil in Hin|].
    apply list_elem_of_singleton in Hin. subst req.
    change (url = b +:+ "/v1/models"). congruence.
  - intros req Hin.
    destruct (Health_outbound env s c ctx) as [Hnone | (url & Hurl & Hout)];
      rewrite ?Hnone, ?Hout in Hin; [by apply elem_of_nil in Hin|].
    apply list_elem_of_singleton in Hin. subst req.
    change (url = b +:+ "/health"). congruence.
Qed.

Lemma request_url_trailing_slash_witness :
  llamastack.ListModels_url (llamastack.NewClient "http://llamastack:8321" "")
    = Some "http://llamastack:8321/v1/models"
  ∧ llamastack.ListModels_url (llamastack.NewClient "http://llamastack:8321/" "")
    = Some "http://llamastack:8321/v1/models"
  ∧ outbound (events (run (llamastack.ListModels
                             (llamastack.NewClient "http://llamastack:8321/" "")
                             http.Background)
                          (sample.env (http.DoError (LibError "connection refused"))
                                      (Ok sample.two_models))
                          initial))
    = [ListModels_request (llamastack.NewClient "http://llamastack:8321/" "")
         http.Background "http://llamastack:8321/v1/models"].
Proof.
  assert (Hne : "http://llamastack:8321" ≠ "") by discriminate.
  assert (Hno : ¬ ends_with_slash "http://llamastack:8321").
  { intros [b Hb].
    apply (f_equal (λ x, gostring.slice_from x (gostring.len x - 1))) in Hb.
    rewrite slice_last in Hb. vm_compute in Hb. discriminate. }
  destruct (request_url_trailing_slash "http://llamastack:8321" "" Hne Hno)
    as (H1 & H2 & _ & _ & Hsent & _).
  split; [exact H1|]. split; [exact H2|].
  destruct (Hsent (sample.env (http.DoError (LibError "connection refused"))
                              (Ok sample.two_models))
                  initial http.Background
                  (llamastack.NewClient "http://llamastack:8321/" "")
                  (or_intror eq_refl)) as (Hlist & _).
  exact (Hlist eq_refl).
Defined.

(** ** The empty base URL *)

Section empty_endpoint.

Lemma slice_last_in_bounds (e : string) :
  e ≠ "" → is_Some (gostring.slice_from e (gostring.len e - 1)).
Proof.
  intros Hne. destruct (string_snoc e Hne) as (b & a & ->).
  rewrite slice_last. by eexists.
Qed.

Lemma ListModels_url_defined (c : Client) :
  endpoint c ≠ "" → is_Some (llamastack.ListModels_url c).
Proof.
  intros Hne. unfold llamastack.ListModels_url.
  destruct (slice_last_in_bounds _ Hne) as [last ->]. by eexists.
Qed.

Lemma Health_url_defined (c : Client) :
  endpoint c ≠ "" → is_Some (llamastack.Health_url c).
Proof.
  intros Hne. unfold llamastack.Health_url.
  destruct (slice_last_in_bounds _ Hne) as [last ->]. by eexists.
Qed.

Lemma ListModels_no_panic env s (c : Client) ctx :
  endpoint c ≠ "" → ∃ r, res (run (llamastack.ListModels c ctx) env s) = Done r.
Proof.
  intros Hne. rewrite ListModels_run.
  destruct (ListModels_url_defined c Hne) as [url ->].
  destruct (url_error env url) as [err|]; simpl; [by eexists|].
  destruct (http_do env (calls s) _) as [err|code body]; simpl; [by eexists|].
  destruct (code =? 200); simpl; [|by eexists].
  destruct (json_decode env body) as [upstream|err]; simpl; by eexists.
Qed.

Lemma Health_no_panic env s (c : Client) ctx :
  endpoint c ≠ "" → ∃ r, res (run (llamastack.Health c ctx) env s) = Done r.
Proof.
  intros Hne. rewrite Health_run.
  destruct (Health_url_defined c Hne) as [url ->].
  destruct (url_error env url) as [err|]; simpl; [by eexists|].
  destruct (http_do env (calls s) _) as [err|code body]; simpl; by eexists.
Qed.

(** A configuration that loads has an endpoint. *)
Lemma LoadConfig_endpoint (environ : gmap string string) (cfg : config.Config) :
  config.LoadConfig environ = Ok cfg → config.LlamaStackEndpoint cfg ≠ "".
Proof.
  unfold config.LoadConfig. simpl.
  destruct (gostring.is_empty (config.getEnvOrDefault environ "LLAMASTACK_ENDPOINT" ""))
    eqn:Hempty; [discriminate|].
  intros [= <-]. simpl. by apply is_empty_false.
Qed.

End empty_endpoint.

(** C10: both [ListModels] and [Health] take the slice
    [endpoint[len(endpoint)-1:]] of the base URL.  For the empty base URL
    the slice is out of range and both calls panic.  For a base URL that
    is not empty the slice is in range and both calls return; and the
    configuration loaded at startup has such a base URL, because
    [LoadConfig] rejects an empty endpoint. *)
Theorem endpoint_slice_bounds :
  (∀ key env s ctx,
      gostring.slice_from "" (gostring.len "" - 1) = None
      ∧ res (run (llamastack.ListModels {| endpoint := ""; apiKey := key |} ctx) env s)
        = Panic "slice bounds out of range"
      ∧ res (run (llamastack.Health {| endpoint := ""; apiKey := key |} ctx) env s)
        = Panic "slice bounds out of range")
  ∧ (∀ c env s ctx,
      endpoint c ≠ "" →
      is_Some (gostring.slice_from (endpoint c) (gostring.len (endpoint c) - 1))
      ∧ (∃ r, res (run (llamastack.ListModels c ctx) env s) = Done r)
      ∧ (∃ r, res (run (llamastack.Health c ctx) env s) = Done r))
  ∧ (∀ environ cfg,
      config.LoadConfig environ = Ok cfg →
      endpoint (llamastack.NewClient (config.LlamaStackEndpoint cfg)
                                     (config.LlamaStackAPIKey cfg)) ≠ "")
  ∧ (∀ environ,
      config.Getenv environ "LLAMASTACK_ENDPOINT" = "" →
      ∃ e, config.LoadConfig environ = Err e).
Proof.
  split; [|split; [|split]].
  - intros key env s ctx. split; [reflexivity|]. split.
    + by rewrite ListModels_run.
    + by rewrite Health_run.
  - intros c env s ctx Hne. split; [by apply slice_last_in_bounds|]. split.
    + by apply ListModels_no_panic.
    + by apply Health_no_panic.
  - intros environ cfg Hload. simpl. exact (LoadConfig_endpoint environ cfg Hload).
  - intros environ Hunset. unfold config.LoadConfig. simpl.
    unfold config.getEnvOrDefault at 1. rewrite Hunset. simpl. by eexists.
Qed.

Lemma endpoint_slice_bounds_witness :
  (∃ r, res (run (llamastack.ListModels sample.client http.Background)
               (sample.env (http.DoResponse 200 "{}") (Ok sample.two_models)) initial)
        = Done r)
  ∧ endpoint (llamastack.NewClient "http://llamastack:8321" "") ≠ "".
Proof.
  destruct endpoint_slice_bounds as (_ & Hsafe & Hcfg & _).
  split.
  - apply (Hsafe sample.client). discriminate.
  - refine (Hcfg {[ "LLAMASTACK_ENDPOINT" := "http://llamastack:8321" ]}
              {| config.Address := "0.0.0.0"; config.Port := "8080";
                 config.LlamaStackEndpoint := "http://llamastack:8321";
                 config.LlamaStackAPIKey := "";
                 config.EnableAuth := true; config.LogLevel := "info";
                 config.LogJSON := false |} _).
    vm_compute. reflexivity.
Defined.

(** ** Translating the models of the upstream *)

Section translation.

Variables (env : Env) (s : State) (c : Client) (ctx : http.Context).
Variables (url body : string) (upstream : LlamaStackResponse).

Hypothesis Hurl : llamastack.ListModels_url c = Some url.
Hypothesis Hreq : url_error env url = None.
Hypothesis Hdo :
  http_do env (calls s) (ListModels_request c ctx url) = http.DoResponse 200 body.
Hypothesis Hdecode : json_decode env body = Ok upstream.

(** The models call on an upstream that answers 200 with a body that
    decodes: one stamped record per upstream model, and one clock
    reading per record. *)
Lemma ListModels_ok :
  res (run (llamastack.ListModels c ctx) env s)
  = Done (Ok (mk_slice (imap (λ i, stamped env (ticks s + i))
                             (goslice.elems (Models upstream)))))
  ∧ readings (events (run (llamastack.ListModels c ctx) env s))
    = imap (λ i _, clock env (ticks s + i)) (goslice.elems (Models upstream)).
Proof.
  rewrite ListModels_run, Hurl, Hreq. simpl. rewrite Hdo. simpl. rewrite Hdecode.
  simpl. split; [reflexivity|].
  rewrite readings_app, (readings_readings (λ i, clock env (ticks s + i))).
  simpl. by rewrite app_nil_r.
Qed.

End translation.

(** C2: when the upstream answers the models call, the i-th record
    returned has the identifier of the i-th upstream record, the object
    kind [model], as creation time the Unix seconds of a reading of the
    clock taken during the call (the i-th reading of the call), and the
    owner [llamastack], whatever the provider and the other fields of the
    upstream record are. *)
Theorem model_translation env s c ctx url body upstream :
  llamastack.ListModels_url c = Some url →
  url_error env url = None →
  http_do env (calls s) (ListModels_request c ctx url) = http.DoResponse 200 body →
  json_decode env body = Ok upstream →
  ∃ data,
    res (run (llamastack.ListModels c ctx) env s) = Done (Ok (mk_slice data))
    ∧ ∀ i model,
        goslice.elems (Models upstream) !! i = Some model →
        ∃ t,
          readings (events (run (llamastack.ListModels c ctx) env s)) !! i = Some t
          ∧ t = clock env (ticks s + i)
          ∧ data !! i = Some {| openai.ID := ID model;
                                openai.Object := "model";
                                openai.Created := time.Unix t;
                                openai.OwnedBy := "llamastack" |}.
Proof.
  intros Hurl Hreq Hdo Hdecode.
  destruct (ListModels_ok env s c ctx url body upstream Hurl Hreq Hdo Hdecode)
    as [Hres Hreadings].
  eexists. split; [exact Hres|].
  intros i model Hi. exists (clock env (ticks s + i)).
  rewrite Hreadings, !list_lookup_imap, Hi. done.
Qed.

Lemma model_translation_witness :
  ∃ data,
    res (run (llamastack.ListModels sample.client http.Background)
           (sample.env (http.DoResponse 200 "{}") (Ok sample.two_models))
           initial) = Done (Ok (mk_slice data))
    ∧ data !! 1%nat = Some {| openai.ID := "granite-7b";
                              openai.Object := "model";
                              openai.Created := 1700000001;
                              openai.OwnedBy := "llamastack" |}.
Proof.
  destruct (model_translation
              (sample.env (http.DoResponse 200 "{}") (Ok sample.two_models))
              initial sample.client http.Background
              "http://llamastack:8321/v1/models" "{}" sample.two_models
              eq_refl eq_refl eq_refl eq_refl)
    as (data & Hres & Hrec).
  exists data. split; [exact Hres|].
  destruct (Hrec 1%nat (sample.llama "granite-7b" "ibm") eq_refl) as (t & _ & -> & Hdata).
  exact Hdata.
Defined.

(** ** Status errors of [ListModels] *)

Section status_errors.

Lemma not_status_error_format (format : string) (args : list fmt_arg) (code : Z) :
  format ≠ "LlamaStack returned status %d: %s" →
  ¬ is_status_error (Errorf format args) code.
Proof. intros Hne [body Heq]. inversion Heq. contradiction. Qed.

End status_errors.

(** C3, on the response the HTTP client returns: [ListModels] fails with a
    status error exactly when [httpClient.Do] returns a response whose
    status is other than 200, and the error carries the status of that
    response.  The client follows redirects by itself, so this is the
    status of the response that ends the exchange, not that of a redirect
    it followed.  So a response with status 200 never gives a status
    error, while a response with another 2xx status, such as 201 or 204,
    does. *)
Theorem ListModels_status_error env s c ctx (code : Z) :
  (∃ e, res (run (llamastack.ListModels c ctx) env s) = Done (Err e)
        ∧ is_status_error e code)
  ↔ (∃ body, http.DoResponse code body
               ∈ answers (events (run (llamastack.ListModels c ctx) env s)))
    ∧ code ≠ 200.
Proof.
  rewrite ListModels_run.
  destruct (llamastack.ListModels_url c) as [url|]; simpl.
  2:{ split; [intros (e & [=] & _) | intros [[body Hin] _]; by apply elem_of_nil in Hin]. }
  destruct (url_error env url) as [err|]; simpl.
  { split.
    - intros (e & [= <-] & He). by apply not_status_error_format in He.
    - intros [[body Hin] _]. by apply elem_of_nil in Hin. }
  destruct (http_do env (calls s) _) as [err|code0 body0]; simpl.
  { split.
    - intros (e & [= <-] & He). by apply not_status_error_format in He.
    - intros [[body Hin] _]. apply list_elem_of_singleton in Hin. discriminate. }
  destruct (code0 =? 200) eqn:Hcode; simpl.
  - apply Z.eqb_eq in Hcode. subst code0.
    destruct (json_decode env body0) as [up0|err0]; simpl; split.
    + intros (e & [=] & _).
    + intros [[b Hin] Hne]. exfalso. apply Hne.
      rewrite answers_app, answers_readings in Hin. simpl in Hin.
      apply list_elem_of_singleton in Hin. congruence.
    + intros (e & [= <-] & He). by apply not_status_error_format in He.
    + intros [[b Hin] Hne]. exfalso. apply Hne.
      apply list_elem_of_singleton in Hin. congruence.
  - apply Z.eqb_neq in Hcode. split.
    + intros (e & [= <-] & [b Hb]). inversion Hb; subst.
      split; [|assumption]. eexists. by apply list_elem_of_singleton.
    + intros [[b Hin] Hne]. apply list_elem_of_singleton in Hin.
      inversion Hin; subst. eexists. split; [reflexivity|]. by eexists.
Qed.

(** An upstream that answers 201 with a body that decodes (201 is not a
    redirect: the HTTP client returns the answer as it is): the status is
    2xx and [ListModels] returns a status error carrying 201. *)
Lemma ListModels_rejects_201 :
  let env := sample.env (http.DoResponse 201 "{}") (Ok {| Models := mk_slice [] |}) in
  let o := run (llamastack.ListModels sample.client http.Background) env initial in
  is_2xx 201
  ∧ answers (events o) = [http.DoResponse 201 "{}"]
  ∧ json_decode env "{}" = Ok {| Models := mk_slice [] |}
  ∧ ∃ e, res o = Done (Err e) ∧ is_status_error e 201.
Proof.
  simpl. split; [unfold is_2xx; lia|]. split; [reflexivity|]. split; [reflexivity|].
  eexists. split; [reflexivity|]. by exists "{}".
Qed.

(** ** The bearer-token guard *)

Section guard.

Lemma HasPrefix_spec (p s : string) :
  gostring.HasPrefix s p = true ↔ ∃ rest, s = p +:+ rest.
Proof.
  unfold gostring.HasPrefix. revert p.
  induction s as [|b s IH]; intros [|a p]; simpl.
  - split; [intros _; by exists "" | done].
  - split; [done | by intros [rest [=]]].
  - split; [intros _; by exists (String b s) | done].
  - destruct (ascii_dec a b) as [->|Hne].
    + rewrite IH. split.
      * intros [rest ->]. by exists rest.
      * intros [rest [= ->]]. by exists rest.
    + split; [done|]. intros [rest [= <- _]]. done.
Qed.

Lemma TrimPrefix_append (p rest : string) :
  gostring.TrimPrefix (p +:+ rest) p = rest.
Proof.
  unfold gostring.TrimPrefix.
  rewrite (proj2 (HasPrefix_spec p (p +:+ rest))) by (by exists rest).
  apply drop_append.
Qed.

(** The slice of the token shown in the log is in range. *)
Lemma token_slice_in_bounds (token : string) :
  gostring.slice_to token (handlers.min (gostring.len token) 10)
  = Some (gostring.take (Z.to_nat (handlers.min (gostring.len token) 10)) token).
Proof.
  unfold gostring.slice_to, handlers.min, gostring.len.
  generalize (gostring.take (Z.to_nat (if Z.of_nat (String.length token) <? 10
                                       then Z.of_nat (String.length token) else 10)) token).
  generalize (String.length token). intros n shown.
  destruct (Z.of_nat n <? 10) eqn:Hlt.
  - rewrite (proj2 (Z.leb_le 0 (Z.of_nat n))) by lia.
    by rewrite (proj2 (Z.leb_le (Z.of_nat n) (Z.of_nat n))) by lia.
  - apply Z.ltb_ge in Hlt. simpl.
    by rewrite (proj2 (Z.leb_le 10 (Z.of_nat n))) by lia.
Qed.

Variables (env : Env) (s : State) (h : handlers.ModelsHandler) (c : gin.Context).

(** Every path of [validateAuth], spelled out on the value of the
    header. *)
Lemma validateAuth_run :
  let v := http.Get (gin.Header c) "Authorization" in
  let token := gostring.TrimPrefix v "Bearer " in
  run (handlers.validateAuth h c) env s =
  if gostring.is_empty v then
    {| res := Done (Some (AuthError "Missing Authorization header"));
       final := s; events := [EvGetHeader "Authorization" v] |}
  else if negb (gostring.HasPrefix v "Bearer ") then
    {| res := Done (Some (AuthError "Invalid Authorization header format"));
       final := s; events := [EvGetHeader "Authorization" v] |}
  else if gostring.is_empty token then
    {| res := Done (Some (AuthError "Empty token"));
       final := s; events := [EvGetHeader "Authorization" v] |}
  else
    {| res := Done None; final := s;
       events :=
         [EvGetHeader "Authorization" v;
          EvLog Debug "Validated token: %s..."
            [AStr (gostring.take (Z.to_nat (handlers.min (gostring.len token) 10))
                                 token)]] |}.
Proof.
  intros v token. unfold handlers.validateAuth. run_unfold. simpl. fold v.
  destruct (gostring.is_empty v); [reflexivity|].
  destruct (gostring.HasPrefix v "Bearer "); simpl; [|reflexivity].
  fold token. destruct (gostring.is_empty token); [reflexivity|].
  by rewrite token_slice_in_bounds.
Qed.

(** The guard returns, leaves the state as it is, reads one header, and
    neither calls the upstream nor writes a reply. *)
Lemma validateAuth_effects :
  (∃ verdict, res (run (handlers.validateAuth h c) env s) = Done verdict)
  ∧ final (run (handlers.validateAuth h c) env s) = s
  ∧ headers_read (events (run (handlers.validateAuth h c) env s)) = ["Authorization"]
  ∧ outbound (events (run (handlers.validateAuth h c) env s)) = []
  ∧ written (events (run (handlers.validateAuth h c) env s)) = [].
Proof.
  rewrite validateAuth_run.
  destruct (gostring.is_empty _); [by repeat split; eexists|].
  destruct (negb _); [by repeat split; eexists|].
  destruct (gostring.is_empty _); by repeat split; eexists.
Qed.

Lemma Get_absent (hd : http.Header) (key : string) :
  hd !! key = None → http.Get hd key = "".
Proof. unfold http.Get. by intros ->. Qed.

End guard.

(** C5: the guard checks, in this order, that the Authorization header is
    there (its value, as [GetHeader] returns it, is not empty: an absent
    header has the value [""]), that the value starts with the bytes
    [Bearer ] (capital B, one space), and that what follows the prefix is
    not empty.  The first check that fails gives its own error: a missing
    header, a malformed header, an empty token, three different errors.
    A value [Bearer ] followed by any token that is not empty is accepted,
    whatever the token is. *)
Theorem validateAuth_checks env s h c :
  let v := http.Get (gin.Header c) "Authorization" in
  let verdict := res (run (handlers.validateAuth h c) env s) in
  (gin.Header c !! "Authorization" = None →
   verdict = Done (Some (AuthError "Missing Authorization header")))
  ∧ (v = "" →
     verdict = Done (Some (AuthError "Missing Authorization header")))
  ∧ (v ≠ "" → (¬ ∃ rest, v = "Bearer " +:+ rest) →
     verdict = Done (Some (AuthError "Invalid Authorization header format")))
  ∧ (v = "Bearer " →
     verdict = Done (Some (AuthError "Empty token")))
  ∧ (∀ token, token ≠ "" → v = "Bearer " +:+ token →
     verdict = Done None)
  ∧ AuthError "Missing Authorization header"
      ≠ AuthError "Invalid Authorization header format"
  ∧ AuthError "Invalid Authorization header format" ≠ AuthError "Empty token"
  ∧ AuthError "Missing Authorization header" ≠ AuthError "Empty token".
Proof.
  intros v verdict. unfold verdict. rewrite validateAuth_run. fold v.
  assert (Habsent : gin.Header c !! "Authorization" = None → v = "")
    by apply Get_absent.
  clearbody v.
  split; [|split; [|split; [|split; [|split]]]].
  - intros Hnone. rewrite (Habsent Hnone). reflexivity.
  - intros ->. reflexivity.
  - intros Hne Hprefix.
    rewrite (proj2 (is_empty_false v) Hne).
    destruct (gostring.HasPrefix v "Bearer ") eqn:Hp; [|reflexivity].
    apply HasPrefix_spec in Hp. contradiction.
  - intros ->. reflexivity.
  - intros token Hne ->.
    rewrite (TrimPrefix_append "Bearer " token).
    rewrite (proj2 (HasPrefix_spec "Bearer " ("Bearer " +:+ token))) by (by exists token).
    by rewrite (proj2 (is_empty_false token) Hne).
  - repeat split; discriminate.
Qed.

Lemma validateAuth_checks_witness :
  res (run (handlers.validateAuth (handlers.NewModelsHandler sample.client true)
                                  (sample.request ∅))
           (sample.env (http.DoError (LibError "unreachable")) (Ok sample.two_models))
           initial)
    = Done (Some (AuthError "Missing Authorization header"))
  ∧ res (run (handlers.validateAuth (handlers.NewModelsHandler sample.client true)
                (sample.request (http.Set_ ∅ "Authorization" "bearer abc")))
           (sample.env (http.DoError (LibError "unreachable")) (Ok sample.two_models))
           initial)
    = Done (Some (AuthError "Invalid Authorization header format"))
  ∧ res (run (handlers.validateAuth (handlers.NewModelsHandler sample.client true)
                (sample.request (http.Set_ ∅ "Authorization" "Bearer ")))
           (sample.env (http.DoError (LibError "unreachable")) (Ok sample.two_models))
           initial)
    = Done (Some (AuthError "Empty token"))
  ∧ res (run (handlers.validateAuth (handlers.NewModelsHandler sample.client true)
                (sample.request (http.Set_ ∅ "Authorization" "Bearer x")))
           (sample.env (http.DoError (LibError "unreachable")) (Ok sample.two_models))
           initial)
    = Done None.
Proof.
  pose (env := sample.env (http.DoError (LibError "unreachable")) (Ok sample.two_models)).
  pose (h := handlers.NewModelsHandler sample.client true).
  split; [|split; [|split]].
  - destruct (validateAuth_checks env initial h (sample.request ∅)) as (H & _).
    apply H. reflexivity.
  - destruct (validateAuth_checks env initial h
                (sample.request (http.Set_ ∅ "Authorization" "bearer abc")))
      as (_ & _ & H & _).
    apply H; [discriminate | intros [rest [=]]].
  - destruct (validateAuth_checks env initial h
                (sample.request (http.Set_ ∅ "Authorization" "Bearer ")))
      as (_ & _ & _ & H & _).
    apply H. reflexivity.
  - destruct (validateAuth_checks env initial h
                (sample.request (http.Set_ ∅ "Authorization" "Bearer x")))
      as (_ & _ & _ & _ & H & _).
    apply (H "x"); [discriminate | reflexivity].
Defined.

(** ** The models handler *)

Section models_handler.

Variables (env : Env) (s : State) (h : handlers.ModelsHandler) (c : gin.Context).

Let ctx : http.Context :=
  http.WithTimeout (gin.RequestContext c) (30 * time.Second).

(** The second half of the handler, on each result of [ListModels]. *)
Lemma HandleListModels_fetch_run (startTime : time.Time) :
  let o := run (llamastack.ListModels (handlers.llamaClient h) ctx) env s in
  run (handlers.HandleListModels_fetch h c startTime) env s =
  match res o with
  | Done (Err err) =>
      {| res := Done (); final := final o;
         events := events o ++
           [EvLog Error "Failed to fetch models from LlamaStack: %v" [AErr err];
            EvJSON 500 (gin.JError (models.NewErrorResponse
                          "Failed to retrieve models from external service"
                          "internal_error"))] |}
  | Done (Ok llamaModels) =>
      let now := clock env (ticks (final o)) in
      {| res := Done ();
         final := {| ticks := S (ticks (final o)); calls := calls (final o) |};
         events := events o ++
           [EvNow now;
            EvLog Info "Successfully returned %d models in %v"
              [AInt (goslice.len llamaModels); ADuration (time.Sub now startTime)];
            EvJSON 200 (gin.JModels (models.NewModelsResponse llamaModels))] |}
  | Panic msg => {| res := Panic msg; final := final o; events := events o |}
  end.
Proof.
  intros o. unfold handlers.HandleListModels_fetch. rewrite run_bind.
  fold ctx. fold o. clearbody o.
  destruct (res o) as [[llamaModels|err]|msg]; [| |reflexivity].
  - run_unfold. simpl. reflexivity.
  - run_unfold. simpl. reflexivity.
Qed.

End models_handler.

(** C1: when the upstream answers the models call with a list of N models
    (N may be 0, and the list may be absent or null in the body),
    [ListModels] returns a sequence of N records whose identifiers are
    those of the upstream, in the same order; the sequence is never the
    nil slice, so the envelope built from it has a [data] field that is an
    array, not [null], and [data] is always among the keys written.  That
    envelope is what the handler replies with status 200. *)
Theorem models_envelope_data env s c ctx url body upstream :
  llamastack.ListModels_url c = Some url →
  url_error env url = None →
  http_do env (calls s) (ListModels_request c ctx url) = http.DoResponse 200 body →
  json_decode env body = Ok upstream →
  ∃ data,
    res (run (llamastack.ListModels c ctx) env s) = Done (Ok data)
    ∧ let envelope := models.NewModelsResponse data in
      json.is_null (models.Data envelope) = false
      ∧ "data" ∈ json.keys (gin.JModels envelope)
      ∧ length (goslice.elems (models.Data envelope))
        = length (goslice.elems (Models upstream))
      ∧ openai.ID <$> goslice.elems (models.Data envelope)
        = ID <$> goslice.elems (Models upstream)
      ∧ ∀ h request startTime,
          handlers.llamaClient h = c →
          http.WithTimeout (gin.RequestContext request) (30 * time.Second) = ctx →
          written (events (run (handlers.HandleListModels_fetch h request startTime)
                               env s))
          = [(200, gin.JModels envelope)].
Proof.
  intros Hurl Hreq Hdo Hdecode.
  destruct (ListModels_ok env s c ctx url body upstream Hurl Hreq Hdo Hdecode) as [Hres _].
  eexists. split; [exact Hres|]. simpl.
  split; [reflexivity|].
  split; [apply elem_of_union; right; by apply elem_of_singleton|].
  split; [apply length_imap|]. split.
  - apply list_eq. intros i. rewrite !list_lookup_fmap, list_lookup_imap.
    by destruct (goslice.elems (Models upstream) !! i).
  - intros h request startTime <- <-.
    pose proof (ListModels_client_events env s (handlers.llamaClient h)
                  (http.WithTimeout (gin.RequestContext request) (30 * time.Second)))
      as Hev.
    rewrite HandleListModels_fetch_run.
    set (lm := run (llamastack.ListModels _ _) env s) in *. clearbody lm.
    rewrite Hres. simpl.
    by rewrite written_app, client_events_written by exact Hev.
Qed.

Lemma models_envelope_data_witness :
  ∃ data,
    res (run (llamastack.ListModels sample.client http.Background)
           (sample.env (http.DoResponse 200 "{}") (Ok {| Models := nil_slice |}))
           initial) = Done (Ok data)
    ∧ json.is_null (models.Data (models.NewModelsResponse data)) = false
    ∧ length (goslice.elems (models.Data (models.NewModelsResponse data))) = 0%nat.
Proof.
  destruct (models_envelope_data
              (sample.env (http.DoResponse 200 "{}") (Ok {| Models := nil_slice |}))
              initial sample.client http.Background
              "http://llamastack:8321/v1/models" "{}" {| Models := nil_slice |}
              eq_refl eq_refl eq_refl eq_refl)
    as (data & Hres & Hnull & _ & Hlen & _).
  exists data. split; [exact Hres|]. split; [exact Hnull | exact Hlen].
Defined.

Section models_handler_run.

Variables (env : Env) (s : State) (h : handlers.ModelsHandler) (c : gin.Context).

(** Every path of [HandleListModels], spelled out on the runs of the
    guard and of the second half. *)
Lemma HandleListModels_run :
  let now := clock env (ticks s) in
  let s1 := {| ticks := S (ticks s); calls := calls s |} in
  let ip := gin.RemoteIP c in
  let pre := [EvNow now; EvClientIP ip;
              EvLog Info "Received models list request from %s" [AStr ip]] in
  let guard := run (handlers.validateAuth h c) env s1 in
  let fetch := run (handlers.HandleListModels_fetch h c now) env s1 in
  run (handlers.HandleListModels h c) env s =
  if handlers.enableAuth h then
    match res guard with
    | Done (Some err) =>
        {| res := Done (); final := s1;
           events := pre ++ events guard ++
             [EvLog Warn "Authentication failed: %v" [AErr err];
              EvJSON 401 (gin.JError (models.NewErrorResponse
                            "Authentication required" "authentication_error"))] |}
    | Done None =>
        {| res := res fetch; final := final fetch;
           events := pre ++ events guard ++ events fetch |}
    | Panic msg => {| res := Panic msg; final := s1; events := pre ++ events guard |}
    end
  else {| res := res fetch; final := final fetch; events := pre ++ events fetch |}.
Proof.
  intros now s1 ip pre guard fetch.
  destruct (validateAuth_effects env s1 h c) as (_ & Hfinal & _).
  fold guard in Hfinal.
  unfold handlers.HandleListModels.
  unfold guard, fetch in *. clear guard fetch.
  set (g := handlers.validateAuth h c) in *.
  set (f := handlers.HandleListModels_fetch h c) in *.
  clearbody g f. unfold run in Hfinal.
  run_unfold. simpl. fold now s1.
  destruct (handlers.enableAuth h); [|reflexivity].
  destruct (res (g env s1)) as [[err|]|msg] eqn:Hg; simpl.
  - by rewrite Hfinal.
  - by rewrite Hfinal.
  - by rewrite Hfinal.
Qed.

End models_handler_run.

Section models_handler_claims.

Variables (env : Env) (s : State) (h : handlers.ModelsHandler) (c : gin.Context).

(** The verdict of the guard depends on the request only. *)
Lemma validateAuth_res_any (s' : State) :
  res (run (handlers.validateAuth h c) env s')
  = res (run (handlers.validateAuth h c) env s).
Proof.
  rewrite !validateAuth_run.
  destruct (gostring.is_empty _); [reflexivity|].
  destruct (negb _); [reflexivity|].
  by destruct (gostring.is_empty _).
Qed.

(** The second half of the handler reads no header, and replies 200 or
    500 if it replies. *)
Lemma HandleListModels_fetch_effects (startTime : time.Time) :
  let o := run (handlers.HandleListModels_fetch h c startTime) env s in
  headers_read (events o) = []
  ∧ ∀ code obj, (code, obj) ∈ written (events o) → code = 200 ∨ code = 500.
Proof.
  intros o. unfold o. rewrite HandleListModels_fetch_run.
  pose proof (ListModels_client_events env s (handlers.llamaClient h)
                (http.WithTimeout (gin.RequestContext c) (30 * time.Second))) as Hev.
  set (lm := run (llamastack.ListModels _ _) env s) in *. clearbody lm.
  destruct (res lm) as [[ms|err]|msg]; simpl.
  - rewrite headers_read_app, written_app, client_events_headers_read,
      client_events_written by exact Hev.
    split; [reflexivity|]. intros code obj Hin.
    apply list_elem_of_singleton in Hin. left. congruence.
  - rewrite headers_read_app, written_app, client_events_headers_read,
      client_events_written by exact Hev.
    split; [reflexivity|]. intros code obj Hin.
    apply list_elem_of_singleton in Hin. right. congruence.
  - rewrite client_events_headers_read, client_events_written by exact Hev.
    split; [reflexivity|]. intros code obj Hin. by apply elem_of_nil in Hin.
Qed.

(** What the handler replies when the guard lets the request through and
    [ListModels] returns an error. *)
Lemma upstream_error_reply (err : error) :
  handlers.enableAuth h = false
  ∨ res (run (handlers.validateAuth h c) env s) = Done None →
  res (run (llamastack.ListModels (handlers.llamaClient h)
              (http.WithTimeout (gin.RequestContext c) (30 * time.Second)))
           env {| ticks := S (ticks s); calls := calls s |}) = Done (Err err) →
  res (run (handlers.HandleListModels h c) env s) = Done ()
  ∧ written (events (run (handlers.HandleListModels h c) env s))
    = [(500, internal_error)].
Proof.
  intros Hauth Hlist.
  pose proof (ListModels_client_events env {| ticks := S (ticks s); calls := calls s |}
                (handlers.llamaClient h)
                (http.WithTimeout (gin.RequestContext c) (30 * time.Second))) as Hev.
  destruct (validateAuth_effects env {| ticks := S (ticks s); calls := calls s |} h c)
    as (_ & _ & _ & _ & Hguard).
  rewrite <- (validateAuth_res_any {| ticks := S (ticks s); calls := calls s |})
    in Hauth.
  rewrite HandleListModels_run, HandleListModels_fetch_run.
  set (lm := run (llamastack.ListModels _ _) env _) in *.
  set (guard := run (handlers.validateAuth h c) env _) in *.
  clearbody lm guard. rewrite Hlist.
  destruct (handlers.enableAuth h) eqn:Hen.
  - destruct Hauth as [? | Hok]; [discriminate|].
    rewrite Hok. simpl. split; [reflexivity|].
    rewrite !written_app, Hguard, client_events_written by exact Hev. reflexivity.
  - simpl. split; [reflexivity|].
    rewrite !written_app, client_events_written by exact Hev. reflexivity.
Qed.

End models_handler_claims.

(** C4: when auth is enforced and the guard rejects the Authorization
    header of a request, the handler replies 401 with the error envelope
    of type [authentication_error], and makes no outbound request.  When
    auth is disabled, the handler does not read the Authorization header
    (the guard, which starts by reading it, is not run), its run is the
    same whatever the headers of the request are, and it never replies
    401. *)
Theorem auth_gate env s h c :
  (handlers.enableAuth h = true →
   ∀ s0 err,
     res (run (handlers.validateAuth h c) env s0) = Done (Some err) →
     res (run (handlers.HandleListModels h c) env s) = Done ()
     ∧ written (events (run (handlers.HandleListModels h c) env s))
       = [(401, authentication_error)]
     ∧ outbound (events (run (handlers.HandleListModels h c) env s)) = [])
  ∧ (handlers.enableAuth h = false →
     headers_read (events (run (handlers.HandleListModels h c) env s)) = []
     ∧ (∀ code obj,
          (code, obj) ∈ written (events (run (handlers.HandleListModels h c) env s)) →
          code ≠ 401)
     ∧ (∀ header,
          run (handlers.HandleListModels h (with_header c header)) env s
          = run (handlers.HandleListModels h c) env s)).
Proof.
  split.
  - intros Hen s0 err Hreject.
    destruct (validateAuth_effects env {| ticks := S (ticks s); calls := calls s |} h c)
      as (_ & _ & _ & Hout & Hwr).
    rewrite (validateAuth_res_any env {| ticks := S (ticks s); calls := calls s |}
               h c s0) in Hreject.
    rewrite HandleListModels_run, Hen.
    set (guard := run (handlers.validateAuth h c) env _) in *.
    set (fetch := run (handlers.HandleListModels_fetch h c _) env _) in *.
    clearbody guard fetch. rewrite Hreject. simpl.
    split; [reflexivity|].
    rewrite !written_app, !outbound_app, Hout, Hwr. by split.
  - intros Hdis. split; [|split].
    + rewrite HandleListModels_run, Hdis. simpl.
      apply HandleListModels_fetch_effects.
    + intros code obj Hin. rewrite HandleListModels_run, Hdis in Hin. simpl in Hin.
      apply HandleListModels_fetch_effects in Hin. lia.
    + intros header. by rewrite !HandleListModels_run, Hdis.
Qed.

Lemma auth_gate_witness :
  written (events (run (handlers.HandleListModels
                          (handlers.NewModelsHandler sample.client true)
                          (sample.request ∅))
                       (sample.env (http.DoResponse 200 "{}") (Ok sample.two_models))
                       initial))
    = [(401, authentication_error)]
  ∧ headers_read (events (run (handlers.HandleListModels
                                 (handlers.NewModelsHandler sample.client false)
                                 (sample.request ∅))
                       (sample.env (http.DoResponse 200 "{}") (Ok sample.two_models))
                       initial))
    = [].
Proof.
  split.
  - destruct (auth_gate (sample.env (http.DoResponse 200 "{}") (Ok sample.two_models))
                initial (handlers.NewModelsHandler sample.client true)
                (sample.request ∅)) as [Hon _].
    destruct (Hon eq_refl initial (AuthError "Missing Authorization header") eq_refl)
      as (_ & Hwritten & _).
    exact Hwritten.
  - destruct (auth_gate (sample.env (http.DoResponse 200 "{}") (Ok sample.two_models))
                initial (handlers.NewModelsHandler sample.client false)
                (sample.request ∅)) as [_ Hoff].
    destruct (Hoff eq_refl) as (Hread & _).
    exact Hread.
Defined.

(** C8: whenever the guard lets a request through and the models call to
    the upstream returns an error, whichever error it is, the handler
    replies 500 with one fixed envelope: a generic message and the type
    [internal_error].  So the replies to two requests whose upstream calls
    fail with different errors are the same, and nothing of the error or
    of the upstream's body is in them. *)
Theorem upstream_errors_masked env1 s1 h1 c1 err1 env2 s2 h2 c2 err2 :
  handlers.enableAuth h1 = false
  ∨ res (run (handlers.validateAuth h1 c1) env1 s1) = Done None →
  res (run (llamastack.ListModels (handlers.llamaClient h1)
              (http.WithTimeout (gin.RequestContext c1) (30 * time.Second)))
           env1 {| ticks := S (ticks s1); calls := calls s1 |}) = Done (Err err1) →
  handlers.enableAuth h2 = false
  ∨ res (run (handlers.validateAuth h2 c2) env2 s2) = Done None →
  res (run (llamastack.ListModels (handlers.llamaClient h2)
              (http.WithTimeout (gin.RequestContext c2) (30 * time.Second)))
           env2 {| ticks := S (ticks s2); calls := calls s2 |}) = Done (Err err2) →
  written (events (run (handlers.HandleListModels h1 c1) env1 s1))
    = [(500, internal_error)]
  ∧ written (events (run (handlers.HandleListModels h2 c2) env2 s2))
    = written (events (run (handlers.HandleListModels h1 c1) env1 s1)).
Proof.
  intros Hauth1 Hlist1 Hauth2 Hlist2.
  destruct (upstream_error_reply env1 s1 h1 c1 err1 Hauth1 Hlist1) as [_ Hw1].
  destruct (upstream_error_reply env2 s2 h2 c2 err2 Hauth2 Hlist2) as [_ Hw2].
  by rewrite Hw1, Hw2.
Qed.

Lemma upstream_errors_masked_witness :
  written (events (run (handlers.HandleListModels
                          (handlers.NewModelsHandler sample.client false)
                          (sample.request ∅))
                       (sample.env (http.DoResponse 503 "upstream stack trace")
                                   (Ok sample.two_models))
                       initial))
    = [(500, internal_error)]
  ∧ written (events (run (handlers.HandleListModels
                            (handlers.NewModelsHandler sample.client true)
                            (sample.request (http.Set_ ∅ "Authorization" "Bearer t")))
                         (sample.env (http.DoError (LibError "connection refused"))
                                     (Ok sample.two_models))
                         initial))
    = written (events (run (handlers.HandleListModels
                          (handlers.NewModelsHandler sample.client false)
                          (sample.request ∅))
                       (sample.env (http.DoResponse 503 "upstream stack trace")
                                   (Ok sample.two_models))
                       initial)).
Proof.
  apply (upstream_errors_masked
           (sample.env (http.DoResponse 503 "upstream stack trace") (Ok sample.two_models))
           initial (handlers.NewModelsHandler sample.client false) (sample.request ∅)
           (Errorf "LlamaStack returned status %d: %s"
                   [AInt 503; AStr "upstream stack trace"])
           (sample.env (http.DoError (LibError "connection refused")) (Ok sample.two_models))
           initial (handlers.NewModelsHandler sample.client true)
           (sample.request (http.Set_ ∅ "Authorization" "Bearer t"))
           (Errorf "failed to make request to LlamaStack: %w"
                   [AErr (LibError "connection refused")])).
  - left. reflexivity.
  - reflexivity.
  - right. reflexivity.
  - reflexivity.
Defined.

(** ** The health probes *)

Section probes.

Variables (env : Env) (s : State) (h : handlers.HealthHandler) (c : gin.Context).

(** Every path of [HandleHealth], spelled out on the run of the upstream
    health check. *)
Lemma HandleHealth_run :
  let now := clock env (ticks s) in
  let uptime := duration_string env
                  (time.Sub (clock env (S (ticks s))) (startTime env)) in
  let snapshot status upstream :=
    {| Status := status; Timestamp := now;
       Services := <["llamastack" := upstream]> ∅;
       Uptime := uptime; Version := "1.0.0" |} in
  let o := run (llamastack.Health (handlers.health_llamaClient h)
                  (http.WithTimeout (gin.RequestContext c) (10 * time.Second)))
               env {| ticks := S (S (ticks s)); calls := calls s |} in
  run (handlers.HandleHealth h c) env s =
  match res o with
  | Done (Some err) =>
      {| res := Done (); final := final o;
         events := [EvNow now; EvNow (clock env (S (ticks s)))] ++ events o ++
           [EvLog Warn "LlamaStack health check failed: %v" [AErr err];
            EvJSON 503 (gin.JHealth (snapshot "unhealthy" "down"))] |}
  | Done None =>
      {| res := Done (); final := final o;
         events := [EvNow now; EvNow (clock env (S (ticks s)))] ++ events o ++
           [EvJSON 200 (gin.JHealth (snapshot "healthy" "up"))] |}
  | Panic msg =>
      {| res := Panic msg; final := final o;
         events := [EvNow now; EvNow (clock env (S (ticks s)))] ++ events o |}
  end.
Proof.
  intros now uptime snapshot o. unfold handlers.HandleHealth.
  unfold o. clear o.
  set (check := llamastack.Health _ _). clearbody check.
  run_unfold. simpl.
  destruct (res (check env _)) as [[err|]|msg]; simpl; reflexivity.
Qed.

(** Every path of [HandleReadiness]. *)
Lemma HandleReadiness_run :
  let o := run (llamastack.Health (handlers.health_llamaClient h)
                  (http.WithTimeout (gin.RequestContext c) (5 * time.Second)))
               env s in
  run (handlers.HandleReadiness h c) env s =
  match res o with
  | Done (Some err) =>
      {| res := Done (); final := final o;
         events := events o ++
           [EvLog Debug "Readiness check failed: %v" [AErr err];
            EvJSON 503 (gin.JH (<["ready" := gin.HBool false]>
                                (<["reason" := gin.HString "llamastack_unavailable"]> ∅)))] |}
  | Done None =>
      {| res := Done (); final := final o;
         events := events o ++
           [EvJSON 200 (gin.JH (<["ready" := gin.HBool true]> ∅))] |}
  | Panic msg => {| res := Panic msg; final := final o; events := events o |}
  end.
Proof.
  intros o. unfold handlers.HandleReadiness.
  unfold o. clear o.
  set (check := llamastack.Health _ _). clearbody check.
  run_unfold. simpl.
  destruct (res (check env s)) as [[err|]|msg]; simpl; reflexivity.
Qed.

(** [Health] succeeds exactly on a 2xx answer. *)
Lemma Health_2xx (cl : Client) (ctx : http.Context) (url : string) (code : Z)
    (body : string) :
  llamastack.Health_url cl = Some url →
  url_error env url = None →
  http_do env (calls s) (Health_request cl ctx url) = http.DoResponse code body →
  res (run (llamastack.Health cl ctx) env s) = Done None ↔ is_2xx code.
Proof.
  intros Hurl Hreq Hdo. rewrite Health_run, Hurl, Hreq. simpl. rewrite Hdo. simpl.
  unfold is_2xx.
  destruct (200 <=? code) eqn:Hlo; destruct (code <? 300) eqn:Hhi; simpl;
    rewrite ?Z.leb_le, ?Z.leb_gt, ?Z.ltb_lt, ?Z.ltb_ge in *;
    split; (done || lia).
Qed.

End probes.

(** C7: [/health] and [/ready] both reply with a status outside 2xx (503)
    when their upstream health check fails and with a 2xx status (200)
    when it succeeds, and the upstream health check succeeds on any 2xx
    answer of the upstream.  The bodies have different shapes: [/health]
    writes a snapshot with [status], [timestamp] and the [services] map,
    in which the upstream is [up] or [down]; [/ready] writes an object
    with [ready] and, on failure, [reason]. *)
Theorem health_probes env s h c :
  let deep := run (handlers.HandleHealth h c) env s in
  let ready := run (handlers.HandleReadiness h c) env s in
  let deep_check :=
    res (run (llamastack.Health (handlers.health_llamaClient h)
                (http.WithTimeout (gin.RequestContext c) (10 * time.Second)))
             env {| ticks := S (S (ticks s)); calls := calls s |}) in
  let ready_check :=
    res (run (llamastack.Health (handlers.health_llamaClient h)
                (http.WithTimeout (gin.RequestContext c) (5 * time.Second)))
             env s) in
  (∀ err, deep_check = Done (Some err) →
     ∃ code r, written (events deep) = [(code, gin.JHealth r)]
               ∧ code = 503 ∧ ¬ is_2xx code
               ∧ Status r = "unhealthy" ∧ Services r !! "llamastack" = Some "down")
  ∧ (deep_check = Done None →
     ∃ code r, written (events deep) = [(code, gin.JHealth r)]
               ∧ code = 200 ∧ is_2xx code
               ∧ Status r = "healthy" ∧ Services r !! "llamastack" = Some "up")
  ∧ (∀ err, ready_check = Done (Some err) →
     ∃ code m, written (events ready) = [(code, gin.JH m)]
               ∧ code = 503 ∧ ¬ is_2xx code
               ∧ m !! "ready" = Some (gin.HBool false)
               ∧ m !! "reason" = Some (gin.HString "llamastack_unavailable"))
  ∧ (ready_check = Done None →
     ∃ code m, written (events ready) = [(code, gin.JH m)]
               ∧ code = 200 ∧ is_2xx code
               ∧ m !! "ready" = Some (gin.HBool true))
  ∧ (∀ cl ctx url code body,
       llamastack.Health_url cl = Some url →
       url_error env url = None →
       http_do env (calls s) (Health_request cl ctx url) = http.DoResponse code body →
       is_2xx code →
       res (run (llamastack.Health cl ctx) env s) = Done None)
  ∧ (∀ code obj code' obj',
       (code, obj) ∈ written (events deep) →
       (code', obj') ∈ written (events ready) →
       {[ "status"; "timestamp"; "services" ]} ⊆ json.keys obj
       ∧ json.keys obj' ⊆ {[ "ready"; "reason" ]}
       ∧ json.keys obj ≠ json.keys obj').
Proof.
  intros deep ready deep_check ready_check.
  pose proof (Health_client_events env {| ticks := S (S (ticks s)); calls := calls s |}
                (handlers.health_llamaClient h)
                (http.WithTimeout (gin.RequestContext c) (10 * time.Second))) as Hev10.
  pose proof (Health_client_events env s (handlers.health_llamaClient h)
                (http.WithTimeout (gin.RequestContext c) (5 * time.Second))) as Hev5.
  assert (Hno503 : ¬ is_2xx 503) by (unfold is_2xx; lia).
  assert (Hyes200 : is_2xx 200) by (unfold is_2xx; lia).
  unfold deep, ready, deep_check, ready_check.
  rewrite HandleHealth_run, HandleReadiness_run.
  set (o10 := run (llamastack.Health _ (http.WithTimeout _ (10 * time.Second))) env _) in *.
  set (o5 := run (llamastack.Health _ (http.WithTimeout _ (5 * time.Second))) env _) in *.
  clearbody o10 o5.
  split; [|split; [|split; [|split; [|split]]]].
  - intros err ->. simpl. do 2 eexists.
    rewrite written_app, client_events_written by exact Hev10.
    repeat split; try reflexivity; assumption.
  - intros ->. simpl. do 2 eexists.
    rewrite written_app, client_events_written by exact Hev10.
    repeat split; try reflexivity; assumption.
  - intros err ->. simpl. do 2 eexists.
    rewrite written_app, client_events_written by exact Hev5.
    repeat split; try reflexivity; assumption.
  - intros ->. simpl. do 2 eexists.
    rewrite written_app, client_events_written by exact Hev5.
    repeat split; try reflexivity; assumption.
  - intros cl ctx url code body Hurl Hreq Hdo Hcode.
    by apply (Health_2xx env s cl ctx url code body Hurl Hreq Hdo).
  - intros code obj code' obj' Hdeep Hready.
    assert (Hobj : ∃ r, obj = gin.JHealth r).
    { destruct (res o10) as [[err|]|msg]; simpl in Hdeep;
        rewrite ?written_app, client_events_written in Hdeep by exact Hev10;
        simpl in Hdeep.
      - apply list_elem_of_singleton in Hdeep. inversion Hdeep. by eexists.
      - apply list_elem_of_singleton in Hdeep. inversion Hdeep. by eexists.
      - by apply elem_of_nil in Hdeep. }
    assert (Hobj' : ∃ m, obj' = gin.JH m ∧ dom m ⊆ {[ "ready"; "reason" ]}).
    { destruct (res o5) as [[err|]|msg]; simpl in Hready;
        rewrite ?written_app, client_events_written in Hready by exact Hev5;
        simpl in Hready.
      + apply list_elem_of_singleton in Hready. inversion Hready.
        eexists. split; [reflexivity|].
        by rewrite !dom_insert_L, dom_empty_L, union_empty_r_L.
      + apply list_elem_of_singleton in Hready. inversion Hready.
        eexists. split; [reflexivity|].
        rewrite !dom_insert_L, dom_empty_L, union_empty_r_L.
        apply union_subseteq_l.
      + by apply elem_of_nil in Hready. }
    destruct Hobj as [r ->]. destruct Hobj' as (m & -> & Hdom).
    assert (Hstatus : "status" ∈ json.keys (gin.JHealth r)).
    { simpl. do 2 (apply elem_of_union; left).
      do 2 (apply elem_of_union; left). by apply elem_of_singleton. }
    split; [|split; [exact Hdom|]].
    + simpl. intros x Hx. do 2 (apply elem_of_union; left). exact Hx.
    + intros Heq. rewrite Heq in Hstatus. simpl in Hstatus.
      apply Hdom in Hstatus.
      apply elem_of_union in Hstatus as [Hs | Hs];
        apply elem_of_singleton in Hs; discriminate.
Qed.

Lemma health_probes_witness :
  (∃ code r,
     written (events (run (handlers.HandleHealth (handlers.NewHealthHandler sample.client)
                             (sample.request ∅))
                          (sample.env (http.DoResponse 204 "") (Ok sample.two_models))
                          initial))
       = [(code, gin.JHealth r)]
     ∧ code = 200 ∧ is_2xx code
     ∧ Status r = "healthy" ∧ Services r !! "llamastack" = Some "up")
  ∧ (∃ code m,
       written (events (run (handlers.HandleReadiness
                               (handlers.NewHealthHandler sample.client)
                               (sample.request ∅))
                            (sample.env (http.DoError (LibError "connection refused"))
                                        (Ok sample.two_models))
                            initial))
         = [(code, gin.JH m)]
       ∧ code = 503 ∧ ¬ is_2xx code
       ∧ m !! "ready" = Some (gin.HBool false)
       ∧ m !! "reason" = Some (gin.HString "llamastack_unavailable")).
Proof.
  split.
  - destruct (health_probes (sample.env (http.DoResponse 204 "") (Ok sample.two_models))
                initial (handlers.NewHealthHandler sample.client) (sample.request ∅))
      as (_ & Hup & _).
    exact (Hup eq_refl).
  - destruct (health_probes
                (sample.env (http.DoError (LibError "connection refused"))
                            (Ok sample.two_models))
                initial (handlers.NewHealthHandler sample.client) (sample.request ∅))
      as (_ & _ & Hdown & _).
    exact (Hdown (Errorf "health check failed: %w" [AErr (LibError "connection refused")])
                 eq_refl).
Defined.

(** C9: for every request, [/live] replies 200 with an object made of
    [alive], which is true, and [timestamp], the reading of the clock; it
    returns, makes no outbound request, and its run depends on the clock
    only: it is the same whatever the upstream answers or would answer. *)
Theorem liveness_unconditional env s h c :
  let o := run (handlers.HandleLiveness h c) env s in
  res o = Done ()
  ∧ (∃ m, written (events o) = [(200, gin.JH m)]
          ∧ m !! "alive" = Some (gin.HBool true)
          ∧ m !! "timestamp" = Some (gin.HTime (clock env (ticks s)))
          ∧ dom m = {[ "alive"; "timestamp" ]})
  ∧ outbound (events o) = []
  ∧ ∀ env', clock env' = clock env →
      run (handlers.HandleLiveness h c) env' s = o.
Proof.
  intros o. unfold o, handlers.HandleLiveness. run_unfold. simpl.
  split; [reflexivity|]. split; [|split; [reflexivity|]].
  - eexists. split; [reflexivity|].
    split; [reflexivity|]. split; [reflexivity|].
    by rewrite !dom_insert_L, dom_empty_L, union_empty_r_L.
  - intros env' ->. reflexivity.
Qed.

Lemma liveness_unconditional_witness :
  run (handlers.HandleLiveness (handlers.NewHealthHandler sample.client) (sample.request ∅))
      (sample.env (http.DoError (LibError "connection refused")) (Err (LibError "EOF")))
      initial
  = run (handlers.HandleLiveness (handlers.NewHealthHandler sample.client)
           (sample.request ∅))
        (sample.env (http.DoResponse 200 "{}") (Ok sample.two_models))
        initial.
Proof.
  destruct (liveness_unconditional
              (sample.env (http.DoResponse 200 "{}") (Ok sample.two_models))
              initial (handlers.NewHealthHandler sample.client) (sample.request ∅))
    as (_ & _ & _ & Hsame).
  exact (Hsame (sample.env (http.DoError (LibError "connection refused"))
                           (Err (LibError "EOF")))
               eq_refl).
Defined.


(** ** Scenarios *)

(** The upstream lists one model and auth is disabled: [/v1/models]
    replies 200 with the list envelope of one record. *)
Example scenario_one_model :
  written (events (run (handlers.HandleListModels
                          (handlers.NewModelsHandler sample.client false)
                          (sample.request ∅))
                       (sample.env (http.DoResponse 200 "{}")
                          (Ok {| Models := mk_slice [sample.llama "llama-3.1-8b" ""] |}))
                       initial))
  = [(200, gin.JModels
             {| models.Object := "list";
                models.Data := mk_slice
                  [{| openai.ID := "llama-3.1-8b"; openai.Created := 1700000001;
                      openai.Object := "model"; openai.OwnedBy := "llamastack" |}] |})].
Proof. reflexivity. Qed.

(** Auth is enforced and the request has no Authorization header:
    [/v1/models] replies 401 and the upstream is not called. *)
Example scenario_no_header :
  let o := run (handlers.HandleListModels
                  (handlers.NewModelsHandler sample.client true) (sample.request ∅))
               (sample.env (http.DoResponse 200 "{}") (Ok sample.two_models))
               initial in
  written (events o) = [(401, authentication_error)] ∧ outbound (events o) = [].
Proof. split; reflexivity. Qed.

(** The upstream call times out: [/v1/models] replies 500 with the type
    [internal_error], and [/health] replies 503 with the upstream down. *)
Example scenario_timeout :
  let env := sample.env (http.DoError (LibError "context deadline exceeded"))
                        (Ok sample.two_models) in
  written (events (run (handlers.HandleListModels
                          (handlers.NewModelsHandler sample.client false)
                          (sample.request ∅)) env initial))
  = [(500, internal_error)]
  ∧ ∃ r, written (events (run (handlers.HandleHealth
                                 (handlers.NewHealthHandler sample.client)
                                 (sample.request ∅)) env initial))
         = [(503, gin.JHealth r)]
         ∧ Services r !! "llamastack" = Some "down".
Proof. split; [reflexivity|]. eexists. split; reflexivity. Qed.

(** A token shorter than ten bytes is logged whole, a longer one cut to
    ten bytes; either way the slice is in range. *)
Example scenario_token_log :
  events (run (handlers.validateAuth (handlers.NewModelsHandler sample.client true)
                 (sample.request (http.Set_ ∅ "Authorization" "Bearer abcdefghijklmnop")))
              (sample.env (http.DoResponse 200 "{}") (Ok sample.two_models))
              initial)
  = [EvGetHeader "Authorization" "Bearer abcdefghijklmnop";
     EvLog Debug "Validated token: %s..." [AStr "abcdefghij"]].
Proof. reflexivity. Qed.


(** * Further properties *)

(** ** The outbound requests *)

Section outbound_requests.

Lemma with_auth_lookup (c : Client) :
  llamastack.with_auth c ∅ !! "Authorization"
  = if gostring.is_empty (apiKey c) then None else Some ["Bearer " +:+ apiKey c].
Proof.
  unfold llamastack.with_auth, http.Set_.
  destruct (gostring.is_empty (apiKey c)); simpl.
  - apply lookup_empty.
  - apply lookup_insert_eq.
Qed.

Lemma with_auth_dom (c : Client) :
  dom (llamastack.with_auth c ∅) ⊆ {[ "Authorization" ]}.
Proof.
  unfold llamastack.with_auth, http.Set_.
  destruct (gostring.is_empty (apiKey c)); simpl.
  - rewrite dom_empty_L. apply empty_subseteq.
  - by rewrite dom_insert_L, dom_empty_L, union_empty_r_L.
Qed.

End outbound_requests.

(** X1: the request [ListModels] builds and hands to the HTTP client is a
    GET under the caller's context, with the content type
    [application/json]; it carries [Authorization: Bearer <key>] when a key
    is configured and no Authorization header when the key is empty, and
    no other header.  When the URL is accepted, exactly one such request
    is handed over.  (A request that [net/http] sends on its own to follow
    a redirect is built by [net/http], not by this code.) *)
Theorem ListModels_request_shape env s c ctx :
  (∀ url,
     llamastack.ListModels_url c = Some url →
     url_error env url = None →
     outbound (events (run (llamastack.ListModels c ctx) env s))
     = [ListModels_request c ctx url])
  ∧ (∀ req,
       req ∈ outbound (events (run (llamastack.ListModels c ctx) env s)) →
       http.Method req = "GET"
       ∧ http.Ctx req = ctx
       ∧ http.ReqHeader req !! "Content-Type" = Some ["application/json"]
       ∧ (apiKey c ≠ "" →
          http.ReqHeader req !! "Authorization" = Some ["Bearer " +:+ apiKey c])
       ∧ (apiKey c = "" → http.ReqHeader req !! "Authorization" = None)
       ∧ dom (http.ReqHeader req) ⊆ {[ "Content-Type"; "Authorization" ]}).
Proof.
  split; [intros url; apply ListModels_outbound_exact|].
  intros req Hin.
  destruct (ListModels_outbound env s c ctx) as [Hnone | (url & _ & Hout)];
    rewrite ?Hnone, ?Hout in Hin; [by apply elem_of_nil in Hin|].
  apply list_elem_of_singleton in Hin. subst req. simpl.
  unfold http.Set_.
  split; [reflexivity|]. split; [reflexivity|].
  split; [apply lookup_insert_eq|].
  rewrite lookup_insert_ne by discriminate. rewrite with_auth_lookup.
  split; [|split].
  - intros Hkey. by rewrite (proj2 (is_empty_false _) Hkey).
  - intros Hkey. by rewrite (proj2 (is_empty_true _) Hkey).
  - rewrite dom_insert_L. apply union_mono_l, with_auth_dom.
Qed.

Lemma ListModels_request_shape_witness :
  http.ReqHeader (ListModels_request sample.client http.Background
                    "http://llamastack:8321/v1/models") !! "Authorization"
  = Some ["Bearer secret"].
Proof.
  assert (Hin : ListModels_request sample.client http.Background
                  "http://llamastack:8321/v1/models"
                ∈ outbound (events (run (llamastack.ListModels sample.client
                                           http.Background)
                                      (sample.env (http.DoResponse 200 "{}")
                                                  (Ok sample.two_models))
                                      initial))).
  { vm_compute. constructor. }
  destruct (ListModels_request_shape
              (sample.env (http.DoResponse 200 "{}") (Ok sample.two_models))
              initial sample.client http.Background) as [_ Hshape].
  destruct (Hshape _ Hin) as (_ & _ & _ & Hkey & _).
  apply Hkey. discriminate.
Defined.

(** X2: the request [Health] builds and hands to the HTTP client is a GET
    under the caller's context; it carries [Authorization: Bearer <key>]
    when a key is configured, no header at all when the key is empty, and
    never a content type.  When the URL is accepted, exactly one such
    request is handed over.  (A request that [net/http] sends on its own
    to follow a redirect is built by [net/http], not by this code.) *)
Theorem Health_request_shape env s c ctx :
  (∀ url,
     llamastack.Health_url c = Some url →
     url_error env url = None →
     outbound (events (run (llamastack.Health c ctx) env s))
     = [Health_request c ctx url])
  ∧ (∀ req,
       req ∈ outbound (events (run (llamastack.Health c ctx) env s)) →
       http.Method req = "GET"
       ∧ http.Ctx req = ctx
       ∧ http.ReqHeader req !! "Content-Type" = None
       ∧ (apiKey c ≠ "" →
          http.ReqHeader req !! "Authorization" = Some ["Bearer " +:+ apiKey c])
       ∧ (apiKey c = "" → http.ReqHeader req = ∅)
       ∧ dom (http.ReqHeader req) ⊆ {[ "Authorization" ]}).
Proof.
  split; [intros url; apply Health_outbound_exact|].
  intros req Hin.
  destruct (Health_outbound env s c ctx) as [Hnone | (url & _ & Hout)];
    rewrite ?Hnone, ?Hout in Hin; [by apply elem_of_nil in Hin|].
  apply list_elem_of_singleton in Hin. subst req. simpl.
  split; [reflexivity|]. split; [reflexivity|]. split; [|split; [|split]].
  - apply not_elem_of_dom. intros Hdom. apply with_auth_dom in Hdom.
    apply elem_of_singleton in Hdom. discriminate.
  - intros Hkey. by rewrite with_auth_lookup, (proj2 (is_empty_false _) Hkey).
  - intros Hkey. unfold llamastack.with_auth.
    by rewrite (proj2 (is_empty_true _) Hkey).
  - apply with_auth_dom.
Qed.

Lemma Health_request_shape_witness :
  http.ReqHeader (Health_request (llamastack.NewClient "http://h" "") http.Background
                    "http://h/health") = ∅.
Proof.
  assert (Hin : Health_request (llamastack.NewClient "http://h" "") http.Background
                  "http://h/health"
                ∈ outbound (events (run (llamastack.Health
                                           (llamastack.NewClient "http://h" "")
                                           http.Background)
                                      (sample.env (http.DoResponse 200 "")
                                                  (Ok sample.two_models))
                                      initial))).
  { vm_compute. constructor. }
  destruct (Health_request_shape
              (sample.env (http.DoResponse 200 "") (Ok sample.two_models))
              initial (llamastack.NewClient "http://h" "") http.Background)
    as [_ Hshape].
  destruct (Hshape _ Hin) as (_ & _ & _ & _ & Hkey & _).
  apply Hkey. reflexivity.
Defined.

(** ** One call of the HTTP client, four ways to fail *)

(** X3: the code never retries: a call of [ListModels] or of [Health]
    calls [httpClient.Do] at most once, whatever that call returns, an
    error included.  (Requests that [net/http] sends inside that one call
    to follow redirects are not retries of the code and are not counted
    here.) *)
Theorem single_attempt env s c ctx :
  (length (outbound (events (run (llamastack.ListModels c ctx) env s))) ≤ 1)%nat
  ∧ (calls (final (run (llamastack.ListModels c ctx) env s)) ≤ S (calls s))%nat
  ∧ (length (outbound (events (run (llamastack.Health c ctx) env s))) ≤ 1)%nat
  ∧ (calls (final (run (llamastack.Health c ctx) env s)) ≤ S (calls s))%nat.
Proof.
  split; [|split; [|split]].
  - destruct (ListModels_outbound env s c ctx) as [-> | (url & _ & ->)]; simpl; lia.
  - rewrite ListModels_run.
    destruct (llamastack.ListModels_url c) as [url|]; simpl; [|lia].
    destruct (url_error env url) as [err|]; simpl; [lia|].
    destruct (http_do env (calls s) _) as [err|code body]; simpl; [lia|].
    destruct (code =? 200); simpl; [|lia].
    destruct (json_decode env body) as [upstream|err]; simpl; lia.
  - destruct (Health_outbound env s c ctx) as [-> | (url & _ & ->)]; simpl; lia.
  - rewrite Health_run.
    destruct (llamastack.Health_url c) as [url|]; simpl; [|lia].
    destruct (url_error env url) as [err|]; simpl; [lia|].
    destruct (http_do env (calls s) _) as [err|code body]; simpl; lia.
Qed.

(** X4: when the URL is refused at the creation of the request, both
    [ListModels] and [Health] return an error that wraps the cause, and
    nothing is sent to the upstream. *)
Theorem refused_url env s c ctx :
  (∀ url err,
     llamastack.ListModels_url c = Some url →
     url_error env url = Some err →
     res (run (llamastack.ListModels c ctx) env s)
       = Done (Err (Errorf "failed to create request: %w" [AErr err]))
     ∧ outbound (events (run (llamastack.ListModels c ctx) env s)) = []
     ∧ final (run (llamastack.ListModels c ctx) env s) = s)
  ∧ (∀ url err,
       llamastack.Health_url c = Some url →
       url_error env url = Some err →
       res (run (llamastack.Health c ctx) env s)
         = Done (Some (Errorf "failed to create health check request: %w" [AErr err]))
       ∧ events (run (llamastack.Health c ctx) env s) = []
       ∧ final (run (llamastack.Health c ctx) env s) = s).
Proof.
  split; intros url err Hurl Herr.
  - rewrite ListModels_run, Hurl, Herr. by repeat split.
  - rewrite Health_run, Hurl, Herr. by repeat split.
Qed.

Lemma refused_url_witness :
  let env := {| clock := sample.ticking;
                url_error := λ _, Some (LibError "invalid control character in URL");
                http_do := λ _ _, http.DoResponse 200 "{}";
                json_decode := λ _, Ok sample.two_models;
                duration_string := λ _, "0s";
                startTime := sample.ticking 0 |} in
  outbound (events (run (llamastack.ListModels sample.client http.Background) env initial))
  = [].
Proof.
  intros env.
  destruct (refused_url env initial sample.client http.Background) as [Hlist _].
  destruct (Hlist "http://llamastack:8321/v1/models"
                  (LibError "invalid control character in URL") eq_refl eq_refl)
    as (_ & Hout & _).
  exact Hout.
Defined.

(** X5: when the transport fails (no answer from the upstream), both
    [ListModels] and [Health] return an error that wraps the cause;
    [ListModels] translates nothing and does not read the clock. *)
Theorem transport_failure env s c ctx :
  (∀ url err,
     llamastack.ListModels_url c = Some url →
     url_error env url = None →
     http_do env (calls s) (ListModels_request c ctx url) = http.DoError err →
     res (run (llamastack.ListModels c ctx) env s)
       = Done (Err (Errorf "failed to make request to LlamaStack: %w" [AErr err]))
     ∧ readings (events (run (llamastack.ListModels c ctx) env s)) = [])
  ∧ (∀ url err,
       llamastack.Health_url c = Some url →
       url_error env url = None →
       http_do env (calls s) (Health_request c ctx url) = http.DoError err →
       res (run (llamastack.Health c ctx) env s)
         = Done (Some (Errorf "health check failed: %w" [AErr err]))).
Proof.
  split; intros url err Hurl Hreq Hdo.
  - rewrite ListModels_run, Hurl, Hreq. simpl. rewrite Hdo. by split.
  - rewrite Health_run, Hurl, Hreq. simpl. by rewrite Hdo.
Qed.

Lemma transport_failure_witness :
  res (run (llamastack.Health sample.client http.Background)
           (sample.env (http.DoError (LibError "connection refused"))
                       (Ok sample.two_models))
           initial)
  = Done (Some (Errorf "health check failed: %w" [AErr (LibError "connection refused")])).
Proof.
  destruct (transport_failure
              (sample.env (http.DoError (LibError "connection refused"))
                          (Ok sample.two_models))
              initial sample.client http.Background) as [_ Hhealth].
  exact (Hhealth "http://llamastack:8321/health" (LibError "connection refused")
                 eq_refl eq_refl eq_refl).
Defined.

(** X6: when [httpClient.Do] returns a response whose status is not 200
    (the response that ends the exchange, after any redirect the client
    followed), [ListModels] returns an error that carries the status and
    the whole body of that response, byte for byte; the body is not
    decoded, so this holds whether or not it is well-formed, and the clock
    is not read. *)
Theorem status_error_carries_body env s c ctx url code body :
  llamastack.ListModels_url c = Some url →
  url_error env url = None →
  http_do env (calls s) (ListModels_request c ctx url) = http.DoResponse code body →
  code ≠ 200 →
  res (run (llamastack.ListModels c ctx) env s)
    = Done (Err (Errorf "LlamaStack returned status %d: %s" [AInt code; AStr body]))
  ∧ readings (events (run (llamastack.ListModels c ctx) env s)) = [].
Proof.
  intros Hurl Hreq Hdo Hcode.
  rewrite ListModels_run, Hurl, Hreq. simpl. rewrite Hdo.
  by rewrite (proj2 (Z.eqb_neq code 200) Hcode).
Qed.

Lemma status_error_carries_body_witness :
  res (run (llamastack.ListModels sample.client http.Background)
           (sample.env (http.DoResponse 404 "not found: /v1/models")
                       (Err (LibError "invalid character")))
           initial)
  = Done (Err (Errorf "LlamaStack returned status %d: %s"
                      [AInt 404; AStr "not found: /v1/models"])).
Proof.
  refine (proj1 (status_error_carries_body
                   (sample.env (http.DoResponse 404 "not found: /v1/models")
                               (Err (LibError "invalid character")))
                   initial sample.client http.Background
                   "http://llamastack:8321/v1/models" 404 "not found: /v1/models"
                   eq_refl eq_refl eq_refl _)).
  discriminate.
Defined.

(** X7: on a 200 answer whose body does not decode, [ListModels] returns
    an error that wraps the decoder's, returns no record, and does not
    read the clock. *)
Theorem undecodable_body env s c ctx url body err :
  llamastack.ListModels_url c = Some url →
  url_error env url = None →
  http_do env (calls s) (ListModels_request c ctx url) = http.DoResponse 200 body →
  json_decode env body = Err err →
  res (run (llamastack.ListModels c ctx) env s)
    = Done (Err (Errorf "failed to decode LlamaStack response: %w" [AErr err]))
  ∧ readings (events (run (llamastack.ListModels c ctx) env s)) = [].
Proof.
  intros Hurl Hreq Hdo Hdec.
  rewrite ListModels_run, Hurl, Hreq. simpl. rewrite Hdo. simpl. by rewrite Hdec.
Qed.

Lemma undecodable_body_witness :
  res (run (llamastack.ListModels sample.client http.Background)
           (sample.env (http.DoResponse 200 "<html>")
                       (Err (LibError "invalid character")))
           initial)
  = Done (Err (Errorf "failed to decode LlamaStack response: %w"
                      [AErr (LibError "invalid character")])).
Proof.
  exact (proj1 (undecodable_body
                  (sample.env (http.DoResponse 200 "<html>")
                              (Err (LibError "invalid character")))
                  initial sample.client http.Background
                  "http://llamastack:8321/v1/models" "<html>"
                  (LibError "invalid character")
                  eq_refl eq_refl eq_refl eq_refl)).
Defined.

(** X8: [Health] returns nil exactly when [httpClient.Do] returned a
    response whose status is 2xx (the response that ends the exchange,
    after any redirect the client followed); when the response has any
    other status, the error carries that status. *)
Theorem Health_nil_iff_2xx env s c ctx :
  (res (run (llamastack.Health c ctx) env s) = Done None
   ↔ ∃ code body,
       answers (events (run (llamastack.Health c ctx) env s))
         = [http.DoResponse code body]
       ∧ is_2xx code)
  ∧ (∀ code body,
       answers (events (run (llamastack.Health c ctx) env s))
         = [http.DoResponse code body] →
       ¬ is_2xx code →
       res (run (llamastack.Health c ctx) env s)
         = Done (Some (Errorf "health check returned status %d" [AInt code]))).
Proof.
  rewrite Health_run. unfold is_2xx.
  destruct (llamastack.Health_url c) as [url|]; simpl.
  2:{ split; [split; [discriminate | by intros (? & ? & [=] & _)] | by intros ? ? [=]]. }
  destruct (url_error env url) as [err|]; simpl.
  { split; [split; [discriminate | by intros (? & ? & [=] & _)] | by intros ? ? [=]]. }
  destruct (http_do env (calls s) _) as [err|code body]; simpl.
  { split; [split; [discriminate | by intros (? & ? & [=] & _)] | by intros ? ? [=]]. }
  destruct (200 <=? code) eqn:Hlo; destruct (code <? 300) eqn:Hhi; simpl;
    rewrite ?Z.leb_le, ?Z.leb_gt, ?Z.ltb_lt, ?Z.ltb_ge in *.
  - split; [split; [intros _; by exists code, body | done]|].
    intros code' body' [= <- <-] Hno. lia.
  - split; [split; [discriminate | intros (? & ? & [= <- <-] & ?); lia]|].
    by intros code' body' [= <- <-] _.
  - split; [split; [discriminate | intros (? & ? & [= <- <-] & ?); lia]|].
    by intros code' body' [= <- <-] _.
  - split; [split; [discriminate | intros (? & ? & [= <- <-] & ?); lia]|].
    by intros code' body' [= <- <-] _.
Qed.

Lemma Health_nil_iff_2xx_witness :
  res (run (llamastack.Health sample.client http.Background)
           (sample.env (http.DoResponse 503 "") (Ok sample.two_models))
           initial)
  = Done (Some (Errorf "health check returned status %d" [AInt 503])).
Proof.
  refine (proj2 (Health_nil_iff_2xx
                   (sample.env (http.DoResponse 503 "") (Ok sample.two_models))
                   initial sample.client http.Background) 503 "" eq_refl _).
  unfold is_2xx. lia.
Defined.

(** ** Creation times *)

(** X9: on a successful models call the clock is read once per upstream
    model and not more, so the records of one answer need not share a
    creation time; when the clock does not go back, the creation times are
    in nondecreasing order along the list. *)
Theorem creation_times_follow_clock env s c ctx url body upstream :
  llamastack.ListModels_url c = Some url →
  url_error env url = None →
  http_do env (calls s) (ListModels_request c ctx url) = http.DoResponse 200 body →
  json_decode env body = Ok upstream →
  ∃ data,
    res (run (llamastack.ListModels c ctx) env s) = Done (Ok (mk_slice data))
    ∧ length (readings (events (run (llamastack.ListModels c ctx) env s)))
      = length (goslice.elems (Models upstream))
    ∧ ticks (final (run (llamastack.ListModels c ctx) env s))
      = (ticks s + length (goslice.elems (Models upstream)))%nat
    ∧ (clock_monotone env →
       ∀ i j a b, (i ≤ j)%nat → data !! i = Some a → data !! j = Some b →
                  openai.Created a ≤ openai.Created b).
Proof.
  intros Hurl Hreq Hdo Hdecode.
  destruct (ListModels_ok env s c ctx url body upstream Hurl Hreq Hdo Hdecode)
    as [Hres Hreadings].
  eexists. split; [exact Hres|]. split; [|split].
  - by rewrite Hreadings, length_imap.
  - rewrite ListModels_run, Hurl, Hreq. simpl. rewrite Hdo. simpl. by rewrite Hdecode.
  - intros Hmono i j a b Hij Ha Hb.
    rewrite list_lookup_imap in Ha, Hb.
    destruct (goslice.elems (Models upstream) !! i) as [mi|]; [|discriminate].
    destruct (goslice.elems (Models upstream) !! j) as [mj|]; [|discriminate].
    injection Ha as <-. injection Hb as <-. simpl.
    apply Hmono. lia.
Qed.

Lemma creation_times_follow_clock_witness :
  ∃ data,
    res (run (llamastack.ListModels sample.client http.Background)
           (sample.env (http.DoResponse 200 "{}") (Ok sample.two_models))
           initial) = Done (Ok (mk_slice data))
    ∧ ∀ a b, data !! 0%nat = Some a → data !! 1%nat = Some b →
             openai.Created a ≤ openai.Created b.
Proof.
  destruct (creation_times_follow_clock
              (sample.env (http.DoResponse 200 "{}") (Ok sample.two_models))
              initial sample.client http.Background
              "http://llamastack:8321/v1/models" "{}" sample.two_models
              eq_refl eq_refl eq_refl eq_refl)
    as (data & Hres & _ & _ & Hmono).
  exists data. split; [exact Hres|].
  intros a b Ha Hb. apply (Hmono) with (i := 0%nat) (j := 1%nat); try assumption.
  - intros i j Hij. unfold time.Unix. simpl. lia.
  - lia.
Defined.

(** ** More on the guard *)

Section guard_more.

Lemma take_prefix (n : nat) (s : string) :
  ∃ rest, s = gostring.take n s +:+ rest.
Proof.
  revert s. induction n as [|n IH]; intros s.
  - by exists s.
  - destruct s as [|a s]; [by exists ""|].
    destruct (IH s) as [rest Hrest]. exists rest.
    change (String a s = String a (gostring.take n s +:+ rest)). by rewrite <- Hrest.
Qed.

Lemma take_length (n : nat) (s : string) :
  String.length (gostring.take n s) = Nat.min n (String.length s).
Proof.
  revert s. induction n as [|n IH]; intros s; [reflexivity|].
  destruct s as [|a s]; [reflexivity|]. simpl. by rewrite IH.
Qed.

Lemma min_spec (a b : Z) : handlers.min a b = Z.min a b.
Proof. unfold handlers.min. destruct (a <? b) eqn:H; [apply Z.ltb_lt in H | apply Z.ltb_ge in H]; lia. Qed.

End guard_more.

(** X10: the guard accepts a request exactly when the value of its
    Authorization header is [Bearer ] followed by at least one byte;
    nothing else passes: not [Bearer] alone, not a lower-case [bearer],
    not another scheme. *)
Theorem validateAuth_accepts_iff env s h c :
  res (run (handlers.validateAuth h c) env s) = Done None
  ↔ ∃ token, token ≠ ""
             ∧ http.Get (gin.Header c) "Authorization" = "Bearer " +:+ token.
Proof.
  rewrite validateAuth_run.
  set (v := http.Get (gin.Header c) "Authorization"). clearbody v.
  destruct (gostring.is_empty v) eqn:Hv; simpl.
  { apply is_empty_true in Hv. subst v. split; [discriminate|].
    intros (token & _ & [=]). }
  destruct (gostring.HasPrefix v "Bearer ") eqn:Hp; simpl.
  - apply HasPrefix_spec in Hp. destruct Hp as [rest ->].
    rewrite TrimPrefix_append.
    destruct (gostring.is_empty rest) eqn:Hrest; simpl.
    + apply is_empty_true in Hrest. subst rest. split; [discriminate|].
      intros (token & Hne & Heq). destruct token; [done | discriminate].
    + apply is_empty_false in Hrest. split; [|done].
      intros _. by exists rest.
  - split; [discriminate|]. intros (token & _ & ->).
    assert (gostring.HasPrefix ("Bearer " +:+ token) "Bearer " = true) as Heq
      by (apply HasPrefix_spec; by exists token).
    congruence.
Qed.

(** X11: an accepted token is not logged whole unless it is at most ten
    bytes long: the guard logs one debug line whose argument is the first
    [min(len(token), 10)] bytes of the token, and nothing else; the slice
    that cuts the token is always in range, so the guard never panics. *)
Theorem token_log_is_cut env s h c token :
  http.Get (gin.Header c) "Authorization" = "Bearer " +:+ token →
  token ≠ "" →
  ∃ shown,
    logged (events (run (handlers.validateAuth h c) env s))
      = [(Debug, "Validated token: %s...", [AStr shown])]
    ∧ starts_with token shown
    ∧ gostring.len shown = Z.min (gostring.len token) 10.
Proof.
  intros Hv Hne. rewrite validateAuth_run, Hv, TrimPrefix_append.
  rewrite (proj2 (HasPrefix_spec "Bearer " ("Bearer " +:+ token))) by (by exists token).
  rewrite (proj2 (is_empty_false token) Hne). simpl.
  eexists. split; [reflexivity|]. split; [apply take_prefix|].
  rewrite min_spec. unfold gostring.len. rewrite take_length.
  generalize (String.length token). intros n. lia.
Qed.

Lemma token_log_is_cut_witness :
  ∃ shown,
    logged (events (run (handlers.validateAuth
                           (handlers.NewModelsHandler sample.client true)
                           (sample.request
                              (http.Set_ ∅ "Authorization" "Bearer abcdefghijklmnop")))
                        (sample.env (http.DoResponse 200 "{}") (Ok sample.two_models))
                        initial))
      = [(Debug, "Validated token: %s...", [AStr shown])]
    ∧ gostring.len shown = 10.
Proof.
  assert (Hv : http.Get (gin.Header
                 (sample.request (http.Set_ ∅ "Authorization" "Bearer abcdefghijklmnop")))
                 "Authorization" = "Bearer " +:+ "abcdefghijklmnop")
    by (vm_compute; reflexivity).
  destruct (token_log_is_cut
              (sample.env (http.DoResponse 200 "{}") (Ok sample.two_models)) initial
              (handlers.NewModelsHandler sample.client true)
              (sample.request (http.Set_ ∅ "Authorization" "Bearer abcdefghijklmnop"))
              "abcdefghijklmnop" Hv)
    as (shown & Hlog & _ & Hlen); [discriminate|].
  exists shown. split; [exact Hlog | exact Hlen].
Defined.

(** ** More on the models handler *)

Section models_handler_more.

Variables (env : Env) (s : State) (h : handlers.ModelsHandler) (c : gin.Context).

Lemma logged_app (e1 e2 : list Event) : logged (e1 ++ e2) = logged e1 ++ logged e2.
Proof. apply omap_app. Qed.

(** What the second half of the handler writes, on each result of the
    models call. *)
Lemma fetch_written (startTime : time.Time) :
  let lm := run (llamastack.ListModels (handlers.llamaClient h)
                   (http.WithTimeout (gin.RequestContext c) (30 * time.Second))) env s in
  let o := run (handlers.HandleListModels_fetch h c startTime) env s in
  match res lm with
  | Done (Ok data) =>
      res o = Done ()
      ∧ written (events o) = [(200, gin.JModels (models.NewModelsResponse data))]
  | Done (Err err) =>
      res o = Done ()
      ∧ written (events o) = [(500, internal_error)]
      ∧ (Error, "Failed to fetch models from LlamaStack: %v", [AErr err])
          ∈ logged (events o)
  | Panic msg => res o = Panic msg ∧ written (events o) = []
  end.
Proof.
  intros lm o. unfold o.
  pose proof (ListModels_client_events env s (handlers.llamaClient h)
                (http.WithTimeout (gin.RequestContext c) (30 * time.Second))) as Hev.
  rewrite HandleListModels_fetch_run. fold lm in Hev |- *. clearbody lm.
  destruct (res lm) as [[data|err]|msg]; simpl.
  - split; [reflexivity|]. by rewrite written_app, client_events_written by exact Hev.
  - split; [reflexivity|]. split.
    + by rewrite written_app, client_events_written by exact Hev.
    + rewrite logged_app. apply elem_of_app. right. simpl. constructor.
  - split; [reflexivity|]. by rewrite client_events_written by exact Hev.
Qed.

(** The events of the second half other than those of the client are log
    lines, one clock reading and the reply: the outbound requests of the
    handler are those of the models call. *)
Lemma fetch_outbound (startTime : time.Time) :
  outbound (events (run (handlers.HandleListModels_fetch h c startTime) env s))
  = outbound (events (run (llamastack.ListModels (handlers.llamaClient h)
                             (http.WithTimeout (gin.RequestContext c)
                                               (30 * time.Second))) env s)).
Proof.
  rewrite HandleListModels_fetch_run.
  set (lm := run (llamastack.ListModels _ _) env s). clearbody lm.
  destruct (res lm) as [[data|err]|msg]; simpl;
    rewrite ?outbound_app; simpl; by rewrite ?app_nil_r.
Qed.

End models_handler_more.

(** With a base URL, the models handler returns and writes one reply. *)
Lemma models_handler_replies env s h c :
  endpoint (handlers.llamaClient h) ≠ "" →
  res (run (handlers.HandleListModels h c) env s) = Done ()
  ∧ ∃ code obj,
      written (events (run (handlers.HandleListModels h c) env s)) = [(code, obj)]
      ∧ (code = 200 ∨ code = 401 ∨ code = 500).
Proof.
  intros Hne.
  set (s1 := {| ticks := S (ticks s); calls := calls s |}).
  destruct (validateAuth_effects env s1 h c) as ([verdict Hverdict] & _ & _ & _ & Hgw).
  pose proof (fetch_written env s1 h c (clock env (ticks s))) as Hfetch.
  destruct (ListModels_no_panic env s1 (handlers.llamaClient h)
              (http.WithTimeout (gin.RequestContext c) (30 * time.Second)) Hne)
    as [r Hr].
  cbv zeta in Hfetch. rewrite Hr in Hfetch.
  rewrite HandleListModels_run. fold s1.
  set (guard := run (handlers.validateAuth h c) env s1) in *.
  set (fetch := run (handlers.HandleListModels_fetch h c (clock env (ticks s))) env s1)
    in *.
  clearbody guard fetch.
  assert (Hf : res fetch = Done ()
               ∧ ∃ code obj, written (events fetch) = [(code, obj)]
                             ∧ (code = 200 ∨ code = 401 ∨ code = 500)).
  { destruct r as [data|err].
    - destruct Hfetch as [-> ->]. split; [reflexivity|]. do 2 eexists. split; [reflexivity|]. lia.
    - destruct Hfetch as (-> & -> & _). split; [reflexivity|].
      do 2 eexists. split; [reflexivity|]. lia. }
  destruct Hf as (Hfres & code & obj & Hfw & Hcode).
  destruct (handlers.enableAuth h); cbn -[written outbound logged app].
  - rewrite Hverdict. destruct verdict as [err|]; cbn -[written outbound logged app].
    + split; [reflexivity|]. rewrite ?written_app, Hgw. simpl.
      do 2 eexists. split; [reflexivity|]. lia.
    + split; [exact Hfres|]. rewrite ?written_app, Hgw, Hfw. simpl.
      exists code, obj. by split.
  - split; [exact Hfres|]. rewrite ?written_app, Hfw. simpl. exists code, obj. by split.
Qed.

(** X12: with a base URL that is not empty, [HandleListModels] returns on
    every request and writes exactly one reply, whose status is 200, 401
    or 500. *)
Theorem models_handler_one_reply env s h c :
  endpoint (handlers.llamaClient h) ≠ "" →
  res (run (handlers.HandleListModels h c) env s) = Done ()
  ∧ ∃ code obj,
      written (events (run (handlers.HandleListModels h c) env s)) = [(code, obj)]
      ∧ (code = 200 ∨ code = 401 ∨ code = 500).
Proof.
  intros Hne.
  destruct (models_handler_replies env s h c Hne) as [Hres Hreply].
  split; [exact Hres | exact Hreply].
Qed.

Lemma models_handler_one_reply_witness :
  res (run (handlers.HandleListModels (handlers.NewModelsHandler sample.client true)
              (sample.request ∅))
           (sample.env (http.DoError (LibError "connection refused"))
                       (Ok sample.two_models))
           initial) = Done ().
Proof.
  refine (proj1 (models_handler_one_reply
                   (sample.env (http.DoError (LibError "connection refused"))
                               (Ok sample.two_models))
                   initial (handlers.NewModelsHandler sample.client true)
                   (sample.request ∅) _)).
  discriminate.
Defined.

(** X13: [HandleListModels] replies 401 exactly when auth is enforced and
    the guard rejects the request; and it sends a request to the upstream
    only when auth is disabled or the guard has accepted the request. *)
Theorem unauthorized_iff env s h c :
  ((∃ obj, (401, obj) ∈ written (events (run (handlers.HandleListModels h c) env s)))
   ↔ handlers.enableAuth h = true
     ∧ ∃ err, res (run (handlers.validateAuth h c) env s) = Done (Some err))
  ∧ (outbound (events (run (handlers.HandleListModels h c) env s)) ≠ [] →
     handlers.enableAuth h = false
     ∨ res (run (handlers.validateAuth h c) env s) = Done None).
Proof.
  set (s1 := {| ticks := S (ticks s); calls := calls s |}).
  destruct (validateAuth_effects env s1 h c) as ([verdict Hverdict] & _ & _ & Hgo & Hgw).
  rewrite <- !(validateAuth_res_any env s h c s1).
  pose proof (HandleListModels_fetch_effects env s1 h c (clock env (ticks s)))
    as [_ Hcodes].
  rewrite HandleListModels_run. fold s1.
  set (guard := run (handlers.validateAuth h c) env s1) in *.
  set (fetch := run (handlers.HandleListModels_fetch h c (clock env (ticks s))) env s1)
    in *.
  clearbody guard fetch. rewrite Hverdict.
  destruct (handlers.enableAuth h); cbn -[written outbound logged app].
  - destruct verdict as [err|]; cbn -[written outbound logged app].
    + split.
      * split; [intros _; split; [reflexivity | by exists err]|].
        intros _. eexists. rewrite ?written_app, Hgw. simpl. constructor.
      * intros Hout. exfalso. apply Hout. by rewrite ?outbound_app, Hgo.
    + split; [|intros _; by right].
      split; [|by intros (_ & err & [=])].
      intros [obj Hin]. rewrite ?written_app, Hgw in Hin. simpl in Hin.
      apply Hcodes in Hin. lia.
  - split; [|intros _; by left].
    split; [|by intros [[=] _]].
    intros [obj Hin]. rewrite ?written_app in Hin. simpl in Hin.
    apply Hcodes in Hin. lia.
Qed.

(** X14: the cause of a failure goes to the log in full, though not to the
    caller: when the guard rejects a request, the handler logs a warning
    with the guard's error; when the models call fails, it logs an error
    with the error the call returned. *)
Theorem failures_are_logged env s h c :
  (handlers.enableAuth h = true →
   ∀ err, res (run (handlers.validateAuth h c) env s) = Done (Some err) →
          (Warn, "Authentication failed: %v", [AErr err])
            ∈ logged (events (run (handlers.HandleListModels h c) env s)))
  ∧ (handlers.enableAuth h = false
     ∨ res (run (handlers.validateAuth h c) env s) = Done None →
     ∀ err,
       res (run (llamastack.ListModels (handlers.llamaClient h)
                   (http.WithTimeout (gin.RequestContext c) (30 * time.Second)))
                env {| ticks := S (ticks s); calls := calls s |}) = Done (Err err) →
       (Error, "Failed to fetch models from LlamaStack: %v", [AErr err])
         ∈ logged (events (run (handlers.HandleListModels h c) env s))).
Proof.
  set (s1 := {| ticks := S (ticks s); calls := calls s |}).
  rewrite <- !(validateAuth_res_any env s h c s1).
  pose proof (fetch_written env s1 h c (clock env (ticks s))) as Hfetch.
  cbv zeta in Hfetch.
  rewrite HandleListModels_run. fold s1.
  set (guard := run (handlers.validateAuth h c) env s1) in *.
  set (fetch := run (handlers.HandleListModels_fetch h c (clock env (ticks s))) env s1)
    in *.
  set (lm := run (llamastack.ListModels _ _) env s1) in *.
  clearbody guard fetch lm.
  split.
  - intros -> err ->. cbn -[written outbound logged app]. rewrite ?logged_app.
    apply elem_of_app. right. apply elem_of_app. right. simpl. constructor.
  - intros Hpass err Hlm. rewrite Hlm in Hfetch. destruct Hfetch as (_ & _ & Hlog).
    destruct (handlers.enableAuth h); cbn -[written outbound logged app].
    + destruct Hpass as [? | ->]; [discriminate|]. cbn -[written outbound logged app].
      rewrite ?logged_app. apply elem_of_app. right. apply elem_of_app. by right.
    + rewrite logged_app. apply elem_of_app. by right.
Qed.

Lemma failures_are_logged_witness :
  (Error, "Failed to fetch models from LlamaStack: %v",
   [AErr (Errorf "LlamaStack returned status %d: %s" [AInt 503; AStr "overloaded"])])
    ∈ logged (events (run (handlers.HandleListModels
                             (handlers.NewModelsHandler sample.client false)
                             (sample.request ∅))
                          (sample.env (http.DoResponse 503 "overloaded")
                                      (Ok sample.two_models))
                          initial)).
Proof.
  destruct (failures_are_logged
              (sample.env (http.DoResponse 503 "overloaded") (Ok sample.two_models))
              initial (handlers.NewModelsHandler sample.client false)
              (sample.request ∅)) as [_ Hfail].
  apply Hfail; [by left | reflexivity].
Defined.

Lemma unauthorized_iff_witness :
  handlers.enableAuth (handlers.NewModelsHandler sample.client false) = false
  ∨ res (run (handlers.validateAuth (handlers.NewModelsHandler sample.client false)
                (sample.request ∅))
             (sample.env (http.DoResponse 200 "{}") (Ok sample.two_models)) initial)
    = Done None.
Proof.
  apply (proj2 (unauthorized_iff
                  (sample.env (http.DoResponse 200 "{}") (Ok sample.two_models))
                  initial (handlers.NewModelsHandler sample.client false)
                  (sample.request ∅))).
  vm_compute. discriminate.
Defined.

(** ** More on the probes *)

Section probes_more.

Variables (env : Env) (s : State) (h : handlers.HealthHandler) (c : gin.Context).

(** What [HandleHealth] writes, on each result of the health check. *)
Lemma HandleHealth_written :
  let check := run (llamastack.Health (handlers.health_llamaClient h)
                      (http.WithTimeout (gin.RequestContext c) (10 * time.Second)))
                   env {| ticks := S (S (ticks s)); calls := calls s |} in
  let o := run (handlers.HandleHealth h c) env s in
  let snapshot status upstream :=
    {| Status := status; Timestamp := clock env (ticks s);
       Services := <["llamastack" := upstream]> ∅;
       Uptime := duration_string env
                   (time.Sub (clock env (S (ticks s))) (startTime env));
       Version := "1.0.0" |} in
  match res check with
  | Done (Some err) =>
      res o = Done ()
      ∧ written (events o) = [(503, gin.JHealth (snapshot "unhealthy" "down"))]
      ∧ logged (events o) = [(Warn, "LlamaStack health check failed: %v", [AErr err])]
  | Done None =>
      res o = Done ()
      ∧ written (events o) = [(200, gin.JHealth (snapshot "healthy" "up"))]
      ∧ logged (events o) = []
  | Panic msg => res o = Panic msg ∧ written (events o) = []
  end.
Proof.
  intros check o snapshot. unfold o.
  pose proof (Health_client_events env {| ticks := S (S (ticks s)); calls := calls s |}
                (handlers.health_llamaClient h)
                (http.WithTimeout (gin.RequestContext c) (10 * time.Second))) as Hev.
  assert (Hnolog : logged (events check) = []).
  { unfold check. rewrite Health_run.
    destruct (llamastack.Health_url _) as [url|]; simpl; [|reflexivity].
    destruct (url_error env url) as [err|]; simpl; [reflexivity|].
    by destruct (http_do env (calls s) _). }
  rewrite HandleHealth_run. fold check in Hev |- *. clearbody check.
  destruct (res check) as [[err|]|msg]; cbn -[written logged app].
  - split; [reflexivity|].
    rewrite !written_app, !logged_app, Hnolog,
      (client_events_written (events check)) by exact Hev.
    by split.
  - split; [reflexivity|].
    rewrite !written_app, !logged_app, Hnolog,
      (client_events_written (events check)) by exact Hev.
    by split.
  - split; [reflexivity|].
    by rewrite !written_app, (client_events_written (events check)) by exact Hev.
Qed.

(** What [HandleReadiness] writes, on each result of the health check. *)
Lemma HandleReadiness_written :
  let check := run (llamastack.Health (handlers.health_llamaClient h)
                      (http.WithTimeout (gin.RequestContext c) (5 * time.Second)))
                   env s in
  let o := run (handlers.HandleReadiness h c) env s in
  match res check with
  | Done (Some err) =>
      res o = Done ()
      ∧ written (events o)
        = [(503, gin.JH (<["ready" := gin.HBool false]>
                         (<["reason" := gin.HString "llamastack_unavailable"]> ∅)))]
  | Done None =>
      res o = Done ()
      ∧ written (events o) = [(200, gin.JH (<["ready" := gin.HBool true]> ∅))]
  | Panic msg => res o = Panic msg ∧ written (events o) = []
  end.
Proof.
  intros check o. unfold o.
  pose proof (Health_client_events env s (handlers.health_llamaClient h)
                (http.WithTimeout (gin.RequestContext c) (5 * time.Second))) as Hev.
  rewrite HandleReadiness_run. fold check in Hev |- *. clearbody check.
  destruct (res check) as [[err|]|msg]; cbn -[written app];
    (split; [reflexivity|]);
    by rewrite ?written_app, (client_events_written (events check)) by exact Hev.
Qed.

End probes_more.

(** X15: with the empty base URL the handlers that call the upstream
    panic before they write anything: [/v1/models] once the guard has let
    the request through, [/health] and [/ready] always.  [/live] still
    replies 200. *)
Theorem empty_endpoint_handlers env s c key auth :
  let client := {| endpoint := ""; apiKey := key |} in
  let h := handlers.NewModelsHandler client auth in
  let hh := handlers.NewHealthHandler client in
  (auth = false ∨ res (run (handlers.validateAuth h c) env s) = Done None →
   res (run (handlers.HandleListModels h c) env s) = Panic "slice bounds out of range"
   ∧ written (events (run (handlers.HandleListModels h c) env s)) = [])
  ∧ res (run (handlers.HandleHealth hh c) env s) = Panic "slice bounds out of range"
  ∧ written (events (run (handlers.HandleHealth hh c) env s)) = []
  ∧ res (run (handlers.HandleReadiness hh c) env s) = Panic "slice bounds out of range"
  ∧ written (events (run (handlers.HandleReadiness hh c) env s)) = []
  ∧ ∃ obj, written (events (run (handlers.HandleLiveness hh c) env s)) = [(200, obj)].
Proof.
  intros client h hh.
  split; [|split; [|split; [|split; [|split]]]].
  - intros Hpass.
    set (s1 := {| ticks := S (ticks s); calls := calls s |}).
    destruct (validateAuth_effects env s1 h c) as (_ & _ & _ & _ & Hgw).
    rewrite <- (validateAuth_res_any env s h c s1) in Hpass.
    pose proof (fetch_written env s1 h c (clock env (ticks s))) as Hfetch.
    cbv zeta in Hfetch. rewrite ListModels_run in Hfetch.
    rewrite HandleListModels_run. fold s1.
    set (guard := run (handlers.validateAuth h c) env s1) in *.
    set (fetch := run (handlers.HandleListModels_fetch h c (clock env (ticks s))) env s1)
      in *.
    clearbody guard fetch. simpl in Hfetch.
    destruct Hfetch as [Hfres Hfw].
    unfold h at 1 2. simpl handlers.enableAuth.
    destruct auth; cbn -[written app].
    + destruct Hpass as [? | ->]; [discriminate|]. cbn -[written app].
      split; [exact Hfres|]. by rewrite !written_app, Hgw, Hfw.
    + split; [exact Hfres|]. by rewrite !written_app, Hfw.
  - pose proof (HandleHealth_written env s hh c) as H.
    cbv zeta in H. rewrite Health_run in H. simpl in H. apply H.
  - pose proof (HandleHealth_written env s hh c) as H.
    cbv zeta in H. rewrite Health_run in H. simpl in H. apply H.
  - pose proof (HandleReadiness_written env s hh c) as H.
    cbv zeta in H. rewrite Health_run in H. simpl in H. apply H.
  - pose proof (HandleReadiness_written env s hh c) as H.
    cbv zeta in H. rewrite Health_run in H. simpl in H. apply H.
  - by eexists.
Qed.

Lemma empty_endpoint_handlers_witness :
  res (run (handlers.HandleListModels
              (handlers.NewModelsHandler {| endpoint := ""; apiKey := "" |} false)
              (sample.request ∅))
           (sample.env (http.DoResponse 200 "{}") (Ok sample.two_models)) initial)
  = Panic "slice bounds out of range".
Proof.
  destruct (empty_endpoint_handlers
              (sample.env (http.DoResponse 200 "{}") (Ok sample.two_models)) initial
              (sample.request ∅) "" false) as [Hmodels _].
  apply Hmodels. by left.
Defined.

(** With a base URL, the two probes return and write one reply each. *)
Lemma probes_reply env s h c :
  endpoint (handlers.health_llamaClient h) ≠ "" →
  let deep := run (handlers.HandleHealth h c) env s in
  let ready := run (handlers.HandleReadiness h c) env s in
  let deep_check :=
    res (run (llamastack.Health (handlers.health_llamaClient h)
                (http.WithTimeout (gin.RequestContext c) (10 * time.Second)))
             env {| ticks := S (S (ticks s)); calls := calls s |}) in
  let ready_check :=
    res (run (llamastack.Health (handlers.health_llamaClient h)
                (http.WithTimeout (gin.RequestContext c) (5 * time.Second)))
             env s) in
  res deep = Done ()
  ∧ (∃ code obj, written (events deep) = [(code, obj)]
                 ∧ (code = 200 ∨ code = 503)
                 ∧ (code = 200 ↔ deep_check = Done None))
  ∧ res ready = Done ()
  ∧ (∃ code obj, written (events ready) = [(code, obj)]
                 ∧ (code = 200 ∨ code = 503)
                 ∧ (code = 200 ↔ ready_check = Done None)).
Proof.
  intros Hne deep ready deep_check ready_check.
  pose proof (HandleHealth_written env s h c) as Hdeep.
  pose proof (HandleReadiness_written env s h c) as Hready.
  cbv zeta in Hdeep, Hready. fold deep in Hdeep. fold ready in Hready.
  destruct (Health_no_panic env {| ticks := S (S (ticks s)); calls := calls s |}
              (handlers.health_llamaClient h)
              (http.WithTimeout (gin.RequestContext c) (10 * time.Second)) Hne)
    as [v10 H10].
  destruct (Health_no_panic env s (handlers.health_llamaClient h)
              (http.WithTimeout (gin.RequestContext c) (5 * time.Second)) Hne)
    as [v5 H5].
  unfold deep_check, ready_check. rewrite H10 in Hdeep |- *. rewrite H5 in Hready |- *.
  clearbody deep ready.
  split; [by destruct v10; destruct Hdeep as [? _]|].
  split.
  { destruct v10 as [err|].
    - destruct Hdeep as (_ & -> & _). do 2 eexists. split; [reflexivity|].
      split; [by right|]. split; [lia | discriminate].
    - destruct Hdeep as (_ & -> & _). do 2 eexists. split; [reflexivity|].
      split; [by left|]. done. }
  split; [by destruct v5; destruct Hready as [? _]|].
  destruct v5 as [err|].
  - destruct Hready as (_ & ->). do 2 eexists. split; [reflexivity|].
    split; [by right|]. split; [lia | discriminate].
  - destruct Hready as (_ & ->). do 2 eexists. split; [reflexivity|].
    split; [by left|]. done.
Qed.

(** X16: with a base URL that is not empty, [HandleHealth] and
    [HandleReadiness] return on every request and write exactly one reply;
    its status is 200 when the health check of that request returned nil
    and 503 when it returned an error, never anything else. *)
Theorem probes_one_reply env s h c :
  endpoint (handlers.health_llamaClient h) ≠ "" →
  let deep := run (handlers.HandleHealth h c) env s in
  let ready := run (handlers.HandleReadiness h c) env s in
  let deep_check :=
    res (run (llamastack.Health (handlers.health_llamaClient h)
                (http.WithTimeout (gin.RequestContext c) (10 * time.Second)))
             env {| ticks := S (S (ticks s)); calls := calls s |}) in
  let ready_check :=
    res (run (llamastack.Health (handlers.health_llamaClient h)
                (http.WithTimeout (gin.RequestContext c) (5 * time.Second)))
             env s) in
  res deep = Done ()
  ∧ (∃ code obj, written (events deep) = [(code, obj)]
                 ∧ (code = 200 ∨ code = 503)
                 ∧ (code = 200 ↔ deep_check = Done None))
  ∧ res ready = Done ()
  ∧ (∃ code obj, written (events ready) = [(code, obj)]
                 ∧ (code = 200 ∨ code = 503)
                 ∧ (code = 200 ↔ ready_check = Done None)).
Proof.
  intros Hne deep ready deep_check ready_check.
  destruct (probes_reply env s h c Hne) as (Hdeep & Hdeep_reply & Hready & Hready_reply).
  split; [exact Hdeep|]. split; [exact Hdeep_reply|].
  split; [exact Hready | exact Hready_reply].
Qed.

Lemma probes_one_reply_witness :
  res (run (handlers.HandleHealth (handlers.NewHealthHandler sample.client)
              (sample.request ∅))
           (sample.env (http.DoError (LibError "no route to host")) (Ok sample.two_models))
           initial) = Done ().
Proof.
  refine (proj1 (probes_one_reply
                   (sample.env (http.DoError (LibError "no route to host"))
                               (Ok sample.two_models))
                   initial (handlers.NewHealthHandler sample.client) (sample.request ∅) _)).
  discriminate.
Defined.

(** X17: every snapshot [/health] writes has the version [1.0.0], the
    first clock reading of the request as timestamp, the uptime measured
    from the process start to the second reading, and exactly one entry in
    its services map, [llamastack]; the status, that entry and the HTTP
    status always agree: healthy, up and 200, or unhealthy, down and
    503. *)
Theorem health_snapshot_fields env s h c code r :
  (code, gin.JHealth r) ∈ written (events (run (handlers.HandleHealth h c) env s)) →
  Version r = "1.0.0"
  ∧ Timestamp r = clock env (ticks s)
  ∧ Uptime r = duration_string env
                 (time.Sub (clock env (S (ticks s))) (startTime env))
  ∧ dom (Services r) = {[ "llamastack" ]}
  ∧ ((code = 200 ∧ Status r = "healthy" ∧ Services r !! "llamastack" = Some "up")
     ∨ (code = 503 ∧ Status r = "unhealthy"
        ∧ Services r !! "llamastack" = Some "down")).
Proof.
  intros Hin.
  pose proof (HandleHealth_written env s h c) as Hw. cbv zeta in Hw.
  set (o := run (handlers.HandleHealth h c) env s) in *.
  set (check := run (llamastack.Health _ _) env _) in *.
  clearbody o check.
  destruct (res check) as [[err|]|msg].
  - destruct Hw as (_ & Hw & _). rewrite Hw in Hin.
    apply list_elem_of_singleton in Hin. injection Hin as -> ->.
    cbn -[dom insert].
    split; [reflexivity|]. split; [reflexivity|]. split; [reflexivity|].
    split; [by rewrite dom_insert_L, dom_empty_L, union_empty_r_L|].
    right. by repeat split.
  - destruct Hw as (_ & Hw & _). rewrite Hw in Hin.
    apply list_elem_of_singleton in Hin. injection Hin as -> ->.
    cbn -[dom insert].
    split; [reflexivity|]. split; [reflexivity|]. split; [reflexivity|].
    split; [by rewrite dom_insert_L, dom_empty_L, union_empty_r_L|].
    left. by repeat split.
  - destruct Hw as [_ Hw]. rewrite Hw in Hin. by apply elem_of_nil in Hin.
Qed.

Lemma health_snapshot_fields_witness :
  ∃ r, Version r = "1.0.0" ∧ Uptime r = "1s" ∧ Status r = "healthy".
Proof.
  pose (env := sample.env (http.DoResponse 200 "") (Ok sample.two_models)).
  pose (r := {| Status := "healthy"; Timestamp := sample.ticking 0;
                Services := <["llamastack" := "up"]> ∅;
                Uptime := "1s"; Version := "1.0.0" |}).
  assert (Hin : (200, gin.JHealth r)
                ∈ written (events (run (handlers.HandleHealth
                                          (handlers.NewHealthHandler sample.client)
                                          (sample.request ∅)) env initial))).
  { vm_compute. constructor. }
  destruct (health_snapshot_fields env initial _ _ 200 r Hin)
    as (Hversion & _ & Huptime & _ & Hstatus).
  exists r. split; [exact Hversion|]. split; [exact Huptime|].
  destruct Hstatus as [(_ & Hs & _) | (Hcode & _)]; [exact Hs | discriminate].
Defined.

(** X18: what [/ready] replies on a failure does not depend on the
    failure: whichever error the health check returns, the body is the
    same object [{ready: false, reason: llamastack_unavailable}], with
    nothing of the error in it. *)
Theorem readiness_failure_is_opaque env1 s1 h1 c1 err1 env2 s2 h2 c2 err2 :
  res (run (llamastack.Health (handlers.health_llamaClient h1)
              (http.WithTimeout (gin.RequestContext c1) (5 * time.Second)))
           env1 s1) = Done (Some err1) →
  res (run (llamastack.Health (handlers.health_llamaClient h2)
              (http.WithTimeout (gin.RequestContext c2) (5 * time.Second)))
           env2 s2) = Done (Some err2) →
  written (events (run (handlers.HandleReadiness h1 c1) env1 s1))
    = [(503, gin.JH (<["ready" := gin.HBool false]>
                     (<["reason" := gin.HString "llamastack_unavailable"]> ∅)))]
  ∧ written (events (run (handlers.HandleReadiness h2 c2) env2 s2))
    = written (events (run (handlers.HandleReadiness h1 c1) env1 s1)).
Proof.
  intros H1 H2.
  pose proof (HandleReadiness_written env1 s1 h1 c1) as Hw1.
  pose proof (HandleReadiness_written env2 s2 h2 c2) as Hw2.
  cbv zeta in Hw1, Hw2. rewrite H1 in Hw1. rewrite H2 in Hw2.
  destruct Hw1 as [_ ->]. destruct Hw2 as [_ ->]. by split.
Qed.

Lemma readiness_failure_is_opaque_witness :
  written (events (run (handlers.HandleReadiness
                          (handlers.NewHealthHandler sample.client) (sample.request ∅))
                       (sample.env (http.DoResponse 500 "panic: nil map")
                                   (Ok sample.two_models))
                       initial))
  = written (events (run (handlers.HandleReadiness
                            (handlers.NewHealthHandler sample.client) (sample.request ∅))
                         (sample.env (http.DoError (LibError "connection refused"))
                                     (Ok sample.two_models))
                         initial)).
Proof.
  exact (proj2 (readiness_failure_is_opaque
                  (sample.env (http.DoError (LibError "connection refused"))
                              (Ok sample.two_models))
                  initial (handlers.NewHealthHandler sample.client) (sample.request ∅)
                  (Errorf "health check failed: %w" [AErr (LibError "connection refused")])
                  (sample.env (http.DoResponse 500 "panic: nil map")
                              (Ok sample.two_models))
                  initial (handlers.NewHealthHandler sample.client) (sample.request ∅)
                  (Errorf "health check returned status %d" [AInt 500])
                  eq_refl eq_refl)).
Defined.

(** ** Configuration *)

Section configuration.

Lemma getEnvOrDefault_value (environ : gmap string string) (key d : string) :
  config.getEnvOrDefault environ key d
  = if gostring.is_empty (config.Getenv environ key) then d
    else config.Getenv environ key.
Proof.
  unfold config.getEnvOrDefault.
  by destruct (gostring.is_empty (config.Getenv environ key)).
Qed.

End configuration.

(** X19: [getEnvOrDefault] gives the value of a variable that is set to a
    string that is not empty, and the default otherwise: a variable set to
    the empty string counts as unset, so no setting can be made empty on
    purpose where the default is not. *)
Theorem getEnvOrDefault_cases (environ : gmap string string) (key d : string) :
  (∀ v, environ !! key = Some v → v ≠ "" → config.getEnvOrDefault environ key d = v)
  ∧ (environ !! key = None → config.getEnvOrDefault environ key d = d)
  ∧ (environ !! key = Some "" → config.getEnvOrDefault environ key d = d)
  ∧ (d ≠ "" → config.getEnvOrDefault environ key d ≠ "").
Proof.
  rewrite getEnvOrDefault_value. unfold config.Getenv.
  split; [|split; [|split]].
  - intros v -> Hne. simpl. by rewrite (proj2 (is_empty_false v) Hne).
  - by intros ->.
  - by intros ->.
  - intros Hd. destruct (gostring.is_empty _) eqn:He; [exact Hd|].
    by apply is_empty_false.
Qed.

Lemma getEnvOrDefault_cases_witness :
  config.getEnvOrDefault {[ "ADAPTER_PORT" := "" ]} "ADAPTER_PORT" "8080" = "8080"
  ∧ config.getEnvOrDefault {[ "ADAPTER_PORT" := "9090" ]} "ADAPTER_PORT" "8080" = "9090".
Proof.
  split.
  - destruct (getEnvOrDefault_cases {[ "ADAPTER_PORT" := "" ]} "ADAPTER_PORT" "8080")
      as (_ & _ & H & _).
    apply H. vm_compute. reflexivity.
  - destruct (getEnvOrDefault_cases {[ "ADAPTER_PORT" := "9090" ]} "ADAPTER_PORT" "8080")
      as (H & _).
    apply H; [vm_compute; reflexivity | discriminate].
Defined.

Section configuration_more.

Lemma LoadConfig_result (environ : gmap string string) :
  config.LoadConfig environ
  = if gostring.is_empty (config.Getenv environ "LLAMASTACK_ENDPOINT")
    then Err (Errorf "LLAMASTACK_ENDPOINT is required" [])
    else Ok {| config.Address := config.getEnvOrDefault environ "ADAPTER_ADDRESS" "0.0.0.0";
               config.Port := config.getEnvOrDefault environ "ADAPTER_PORT" "8080";
               config.LlamaStackEndpoint := config.Getenv environ "LLAMASTACK_ENDPOINT";
               config.LlamaStackAPIKey := config.Getenv environ "LLAMASTACK_API_KEY";
               config.EnableAuth :=
                 String.eqb (config.getEnvOrDefault environ "ENABLE_AUTH" "true") "true";
               config.LogLevel := config.getEnvOrDefault environ "LOG_LEVEL" "info";
               config.LogJSON :=
                 String.eqb (config.getEnvOrDefault environ "LOG_JSON" "false") "true" |}.
Proof.
  unfold config.LoadConfig. cbn [config.LlamaStackEndpoint].
  rewrite !(getEnvOrDefault_value environ _ "").
  destruct (gostring.is_empty (config.Getenv environ "LLAMASTACK_ENDPOINT")) eqn:He;
    rewrite ?He; [reflexivity|].
  by destruct (gostring.is_empty (config.Getenv environ "LLAMASTACK_API_KEY")) eqn:Hk;
    [apply is_empty_true in Hk; rewrite Hk|].
Qed.

Lemma Getenv_set (environ : gmap string string) (key : string) :
  config.Getenv environ key ≠ "" → environ !! key = Some (config.Getenv environ key).
Proof. unfold config.Getenv. destruct (environ !! key); simpl; [done | congruence]. Qed.

End configuration_more.

(** X20: [LoadConfig] succeeds exactly when [LLAMASTACK_ENDPOINT] is set
    to a string that is not empty, and fails with the error
    [LLAMASTACK_ENDPOINT is required] otherwise; no other variable can
    make it fail.  The configuration it returns has the endpoint and the
    API key of the environment byte for byte (no trimming, no check that
    the endpoint is a URL), and the documented defaults for the address,
    the port and the log level when these are unset. *)
Theorem LoadConfig_succeeds_iff (environ : gmap string string) :
  ((∃ cfg, config.LoadConfig environ = Ok cfg)
   ↔ ∃ v, environ !! "LLAMASTACK_ENDPOINT" = Some v ∧ v ≠ "")
  ∧ ((¬ ∃ v, environ !! "LLAMASTACK_ENDPOINT" = Some v ∧ v ≠ "") →
     config.LoadConfig environ = Err (Errorf "LLAMASTACK_ENDPOINT is required" []))
  ∧ (∀ cfg, config.LoadConfig environ = Ok cfg →
       environ !! "LLAMASTACK_ENDPOINT" = Some (config.LlamaStackEndpoint cfg)
       ∧ config.LlamaStackAPIKey cfg = config.Getenv environ "LLAMASTACK_API_KEY"
       ∧ (environ !! "ADAPTER_ADDRESS" = None → config.Address cfg = "0.0.0.0")
       ∧ (environ !! "ADAPTER_PORT" = None → config.Port cfg = "8080")
       ∧ (environ !! "LOG_LEVEL" = None → config.LogLevel cfg = "info")).
Proof.
  rewrite LoadConfig_result.
  destruct (gostring.is_empty (config.Getenv environ "LLAMASTACK_ENDPOINT")) eqn:He.
  - apply is_empty_true in He.
    assert (Hno : ¬ ∃ v, environ !! "LLAMASTACK_ENDPOINT" = Some v ∧ v ≠ "").
    { intros (v & Hv & Hne). unfold config.Getenv in He. rewrite Hv in He. simpl in He.
      contradiction. }
    split; [split; [by intros [cfg [=]] | by intros H; destruct (Hno H)]|].
    split; [done | by intros cfg [=]].
  - apply is_empty_false in He. pose proof (Getenv_set environ _ He) as Hset.
    split; [split; [intros _; eexists; by split | intros _; by eexists]|].
    split; [intros Hno; destruct Hno; eexists; by split|].
    intros cfg [= <-]. cbn.
    split; [exact Hset|]. split; [reflexivity|].
    rewrite !getEnvOrDefault_value. unfold config.Getenv.
    split; [|split]; by intros ->.
Qed.

Lemma LoadConfig_succeeds_iff_witness :
  config.LoadConfig {[ "LLAMASTACK_API_KEY" := "k"; "ADAPTER_PORT" := "9000" ]}
  = Err (Errorf "LLAMASTACK_ENDPOINT is required" []).
Proof.
  apply (proj1 (proj2 (LoadConfig_succeeds_iff
                         {[ "LLAMASTACK_API_KEY" := "k"; "ADAPTER_PORT" := "9000" ]}))).
  intros (v & Hv & _). vm_compute in Hv. discriminate.
Defined.

(** X21: the two flags are compared with the string [true], byte for
    byte.  Auth is enforced when [ENABLE_AUTH] is unset, empty or exactly
    [true], and disabled by every other value, [TRUE], [1] and [yes]
    included; JSON logging is on only when [LOG_JSON] is exactly
    [true]. *)
Theorem flags_are_exact (environ : gmap string string) (cfg : config.Config) :
  config.LoadConfig environ = Ok cfg →
  (config.EnableAuth cfg = true
   ↔ config.Getenv environ "ENABLE_AUTH" = ""
     ∨ config.Getenv environ "ENABLE_AUTH" = "true")
  ∧ (config.LogJSON cfg = true ↔ config.Getenv environ "LOG_JSON" = "true").
Proof.
  rewrite LoadConfig_result.
  destruct (gostring.is_empty (config.Getenv environ "LLAMASTACK_ENDPOINT"));
    [discriminate|].
  intros [= <-]. cbn. rewrite !getEnvOrDefault_value.
  split.
  - destruct (gostring.is_empty (config.Getenv environ "ENABLE_AUTH")) eqn:He.
    + apply is_empty_true in He. split; [by left | done].
    + apply is_empty_false in He. rewrite String.eqb_eq.
      split; [by right | by intros [? | ?]].
  - destruct (gostring.is_empty (config.Getenv environ "LOG_JSON")) eqn:He.
    + apply is_empty_true in He. rewrite He. split; discriminate.
    + apply String.eqb_eq.
Qed.

Lemma flags_are_exact_witness :
  ∃ cfg,
    config.LoadConfig {[ "LLAMASTACK_ENDPOINT" := "http://h"; "ENABLE_AUTH" := "TRUE" ]}
      = Ok cfg
    ∧ config.EnableAuth cfg ≠ true.
Proof.
  pose (environ := ({[ "LLAMASTACK_ENDPOINT" := "http://h"; "ENABLE_AUTH" := "TRUE" ]}
                    : gmap string string)).
  assert (Hload : ∃ cfg, config.LoadConfig environ = Ok cfg)
    by (vm_compute; by eexists).
  destruct Hload as [cfg Hload]. exists cfg. split; [exact Hload|].
  destruct (flags_are_exact environ cfg Hload) as [Hauth _].
  intros Hon. apply Hauth in Hon. vm_compute in Hon.
  destruct Hon as [Hon | Hon]; discriminate.
Defined.

(** ** The handlers as [main] builds them *)

Section wiring.

(** A request without an Authorization header, under enforced auth. *)
Lemma no_header_reply env s (h : handlers.ModelsHandler) (c : gin.Context) :
  handlers.enableAuth h = true →
  gin.Header c !! "Authorization" = None →
  res (run (handlers.HandleListModels h c) env s) = Done ()
  ∧ written (events (run (handlers.HandleListModels h c) env s))
    = [(401, authentication_error)]
  ∧ outbound (events (run (handlers.HandleListModels h c) env s)) = [].
Proof.
  intros Hen Hnone.
  set (s1 := {| ticks := S (ticks s); calls := calls s |}).
  destruct (validateAuth_effects env s1 h c) as (_ & _ & _ & Hgo & Hgw).
  assert (Hverdict : res (run (handlers.validateAuth h c) env s1)
                     = Done (Some (AuthError "Missing Authorization header"))).
  { rewrite validateAuth_run. by rewrite (Get_absent _ _ Hnone). }
  rewrite HandleListModels_run, Hen. fold s1.
  set (guard := run (handlers.validateAuth h c) env s1) in *.
  set (fetch := run (handlers.HandleListModels_fetch h c _) env s1) in *.
  clearbody guard fetch. rewrite Hverdict. cbn -[written outbound app].
  split; [reflexivity|].
  by rewrite !written_app, !outbound_app, Hgo, Hgw.
Qed.

End wiring.

(** X22: a service wired by [main] from a configuration that loaded does
    not panic in a handler: the client it builds has the endpoint of the
    environment, and on every request [/v1/models], [/health] and [/ready]
    return and write exactly one reply. *)
Theorem loaded_service_always_replies (environ : gmap string string) cfg env s c :
  config.LoadConfig environ = Ok cfg →
  environ !! "LLAMASTACK_ENDPOINT" = Some (endpoint (adapter.llamaClient cfg))
  ∧ (res (run (handlers.HandleListModels (adapter.modelsHandler cfg) c) env s) = Done ()
     ∧ ∃ code obj,
         written (events (run (handlers.HandleListModels (adapter.modelsHandler cfg) c)
                              env s)) = [(code, obj)])
  ∧ (res (run (handlers.HandleHealth (adapter.healthHandler cfg) c) env s) = Done ()
     ∧ ∃ code obj,
         written (events (run (handlers.HandleHealth (adapter.healthHandler cfg) c)
                              env s)) = [(code, obj)])
  ∧ (res (run (handlers.HandleReadiness (adapter.healthHandler cfg) c) env s) = Done ()
     ∧ ∃ code obj,
         written (events (run (handlers.HandleReadiness (adapter.healthHandler cfg) c)
                              env s)) = [(code, obj)]).
Proof.
  intros Hload.
  pose proof (LoadConfig_endpoint environ cfg Hload) as Hne.
  assert (Hset : environ !! "LLAMASTACK_ENDPOINT" = Some (config.LlamaStackEndpoint cfg)).
  { rewrite LoadConfig_result in Hload.
    destruct (gostring.is_empty (config.Getenv environ "LLAMASTACK_ENDPOINT")) eqn:He;
      [discriminate|].
    injection Hload as <-. cbn. apply Getenv_set. by apply is_empty_false. }
  split; [exact Hset|].
  destruct (models_handler_replies env s (adapter.modelsHandler cfg) c Hne)
    as (Hm & code & obj & Hmw & _).
  destruct (probes_reply env s (adapter.healthHandler cfg) c Hne)
    as (Hd & (cd & od & Hdw & _) & Hr & (cr & or & Hrw & _)).
  split; [split; [exact Hm | by exists code, obj]|].
  split; [split; [exact Hd | by exists cd, od]|].
  split; [exact Hr | by exists cr, or].
Qed.

Lemma loaded_service_always_replies_witness :
  res (run (handlers.HandleListModels
              (adapter.modelsHandler
                 {| config.Address := "0.0.0.0"; config.Port := "8080";
                    config.LlamaStackEndpoint := "http://h";
                    config.LlamaStackAPIKey := "";
                    config.EnableAuth := true; config.LogLevel := "info";
                    config.LogJSON := false |})
              (sample.request ∅))
           (sample.env (http.DoResponse 200 "{}") (Ok sample.two_models)) initial)
  = Done ().
Proof.
  assert (Hload : config.LoadConfig {[ "LLAMASTACK_ENDPOINT" := "http://h" ]}
                  = Ok {| config.Address := "0.0.0.0"; config.Port := "8080";
                          config.LlamaStackEndpoint := "http://h";
                          config.LlamaStackAPIKey := "";
                          config.EnableAuth := true; config.LogLevel := "info";
                          config.LogJSON := false |})
    by (vm_compute; reflexivity).
  destruct (loaded_service_always_replies _ _
              (sample.env (http.DoResponse 200 "{}") (Ok sample.two_models)) initial
              (sample.request ∅) Hload) as (_ & [Hres _] & _).
  exact Hres.
Defined.

(** X23: auth is on by default: when [ENABLE_AUTH] is unset or empty, the
    models handler that [main] builds answers a request without an
    Authorization header with 401 and does not call the upstream. *)
Theorem auth_is_on_by_default (environ : gmap string string) cfg env s c :
  config.LoadConfig environ = Ok cfg →
  config.Getenv environ "ENABLE_AUTH" = "" →
  gin.Header c !! "Authorization" = None →
  handlers.enableAuth (adapter.modelsHandler cfg) = true
  ∧ written (events (run (handlers.HandleListModels (adapter.modelsHandler cfg) c) env s))
    = [(401, authentication_error)]
  ∧ outbound (events (run (handlers.HandleListModels (adapter.modelsHandler cfg) c) env s))
    = [].
Proof.
  intros Hload Hunset Hnone.
  assert (Hen : handlers.enableAuth (adapter.modelsHandler cfg) = true).
  { rewrite LoadConfig_result in Hload.
    destruct (gostring.is_empty (config.Getenv environ "LLAMASTACK_ENDPOINT"));
      [discriminate|].
    injection Hload as <-. cbn. by rewrite getEnvOrDefault_value, Hunset. }
  split; [exact Hen|].
  by destruct (no_header_reply env s (adapter.modelsHandler cfg) c Hen Hnone) as [_ ?].
Qed.

Lemma auth_is_on_by_default_witness :
  written (events (run (handlers.HandleListModels
                          (adapter.modelsHandler
                             {| config.Address := "0.0.0.0"; config.Port := "8080";
                                config.LlamaStackEndpoint := "http://h";
                                config.LlamaStackAPIKey := "";
                                config.EnableAuth := true; config.LogLevel := "info";
                                config.LogJSON := false |})
                          (sample.request ∅))
                       (sample.env (http.DoResponse 200 "{}") (Ok sample.two_models))
                       initial))
  = [(401, authentication_error)].
Proof.
  assert (Hload : config.LoadConfig {[ "LLAMASTACK_ENDPOINT" := "http://h" ]}
                  = Ok {| config.Address := "0.0.0.0"; config.Port := "8080";
                          config.LlamaStackEndpoint := "http://h";
                          config.LlamaStackAPIKey := "";
                          config.EnableAuth := true; config.LogLevel := "info";
                          config.LogJSON := false |})
    by (vm_compute; reflexivity).
  assert (Hunset : config.Getenv {[ "LLAMASTACK_ENDPOINT" := "http://h" ]} "ENABLE_AUTH"
                   = "") by (vm_compute; reflexivity).
  assert (Hnone : gin.Header (sample.request ∅) !! "Authorization" = None)
    by (vm_compute; reflexivity).
  destruct (auth_is_on_by_default _ _
              (sample.env (http.DoResponse 200 "{}") (Ok sample.two_models)) initial
              (sample.request ∅) Hload Hunset Hnone) as (_ & Hw & _).
  exact Hw.
Defined.

(** X24: the CORS middleware sets the same three headers on every reply,
    whatever the method, and allows any origin.  It answers an [OPTIONS]
    request itself with status 200 and aborts the chain, so that nothing
    that follows it runs: no guard, no request to the upstream.  Any other
    method, matched byte for byte, goes on to the rest of the chain, whose
    effects are unchanged. *)
Theorem cors_preflight (method : string) (next : M unit) env s :
  let o := run (adapter.corsMiddleware method next) env s in
  (∀ p, res o = Done p →
     adapter.ReplyHeader p !! "Access-Control-Allow-Origin" = Some "*"
     ∧ adapter.ReplyHeader p !! "Access-Control-Allow-Methods"
       = Some "GET, POST, OPTIONS"
     ∧ adapter.ReplyHeader p !! "Access-Control-Allow-Headers"
       = Some "Origin, Content-Type, Authorization"
     ∧ size (adapter.ReplyHeader p) = 3%nat)
  ∧ (method = "OPTIONS" →
     (∃ p, res o = Done p ∧ adapter.Aborted p = Some 200)
     ∧ events o = [] ∧ final o = s)
  ∧ (method ≠ "OPTIONS" →
     events o = events (run next env s)
     ∧ final o = final (run next env s)
     ∧ (res (run next env s) = Done () →
        ∃ p, res o = Done p ∧ adapter.Aborted p = None)
     ∧ (∀ msg, res (run next env s) = Panic msg → res o = Panic msg)).
Proof.
  intros o. unfold o, adapter.corsMiddleware.
  set (n := next). clearbody n.
  destruct (String.eqb method "OPTIONS") eqn:Hm.
  - apply String.eqb_eq in Hm. run_unfold. cbn -[insert lookup size].
    split; [|split].
    + intros p [= <-]. cbn -[insert lookup size].
      split; [by rewrite !lookup_insert_ne, lookup_insert_eq by discriminate|].
      split; [by rewrite lookup_insert_ne, lookup_insert_eq by discriminate|].
      split; [by rewrite lookup_insert_eq|]. reflexivity.
    + intros _. split; [by eexists|]. by split.
    + intros Hne. contradiction.
  - apply String.eqb_neq in Hm. rewrite run_bind. unfold run.
    destruct (res (n env s)) as [[]|msg] eqn:Hn; cbn -[insert lookup size].
    + split; [|split].
      * intros p [= <-]. cbn -[insert lookup size].
        split; [by rewrite !lookup_insert_ne, lookup_insert_eq by discriminate|].
        split; [by rewrite lookup_insert_ne, lookup_insert_eq by discriminate|].
        split; [by rewrite lookup_insert_eq|]. reflexivity.
      * intros Heq. contradiction.
      * intros _. rewrite app_nil_r. split; [reflexivity|]. split; [reflexivity|].
        split; [intros _; by eexists | intros msg [=]].
    + split; [|split].
      * intros p [=].
      * intros Heq. contradiction.
      * intros _. split; [reflexivity|]. split; [reflexivity|].
        split; [intros [=] | by intros msg' [= ->]].
Qed.

Lemma cors_preflight_witness :
  events (run (adapter.corsMiddleware "OPTIONS"
                 (handlers.HandleListModels (handlers.NewModelsHandler sample.client true)
                    (sample.request ∅)))
              (sample.env (http.DoResponse 200 "{}") (Ok sample.two_models)) initial)
  = [].
Proof.
  destruct (cors_preflight "OPTIONS"
              (handlers.HandleListModels (handlers.NewModelsHandler sample.client true)
                 (sample.request ∅))
              (sample.env (http.DoResponse 200 "{}") (Ok sample.two_models)) initial)
    as (_ & Hoptions & _).
  destruct (Hoptions eq_refl) as (_ & Hev & _). exact Hev.
Defined.

(** ** The whole path of an accepted request *)

(** X25: end to end, under enforced auth: a request whose Authorization
    header is [Bearer ] and a token, when the upstream answers the models
    call with 200 and a body that decodes, gets exactly one reply, 200
    with the envelope [{object: list, data: [...]}] of the upstream's
    models in order; the handler makes exactly one outbound request, reads
    the clock once before the call, once per model and once after. *)
Theorem accepted_request_gets_models env s h c token url body upstream :
  let s1 := {| ticks := S (ticks s); calls := calls s |} in
  let ctx := http.WithTimeout (gin.RequestContext c) (30 * time.Second) in
  handlers.enableAuth h = true →
  http.Get (gin.Header c) "Authorization" = "Bearer " +:+ token →
  token ≠ "" →
  llamastack.ListModels_url (handlers.llamaClient h) = Some url →
  url_error env url = None →
  http_do env (calls s) (ListModels_request (handlers.llamaClient h) ctx url)
    = http.DoResponse 200 body →
  json_decode env body = Ok upstream →
  let o := run (handlers.HandleListModels h c) env s in
  res o = Done ()
  ∧ written (events o)
    = [(200, gin.JModels
               {| models.Object := "list";
                  models.Data :=
                    mk_slice (imap (λ i, stamped env (S (ticks s) + i))
                                   (goslice.elems (Models upstream))) |})]
  ∧ outbound (events o) = [ListModels_request (handlers.llamaClient h) ctx url]
  ∧ length (readings (events o)) = (2 + length (goslice.elems (Models upstream)))%nat.
Proof.
  intros s1 ctx Hen Hv Hne Hurl Hreq Hdo Hdec o. unfold o.
  destruct (validateAuth_effects env s1 h c) as (_ & _ & _ & Hgo & Hgw).
  assert (Hverdict : res (run (handlers.validateAuth h c) env s1) = Done None).
  { rewrite validateAuth_run, Hv, TrimPrefix_append.
    rewrite (proj2 (HasPrefix_spec "Bearer " ("Bearer " +:+ token))) by (by exists token).
    by rewrite (proj2 (is_empty_false token) Hne). }
  assert (Hgr : readings (events (run (handlers.validateAuth h c) env s1)) = []).
  { rewrite validateAuth_run, Hv, TrimPrefix_append.
    rewrite (proj2 (HasPrefix_spec "Bearer " ("Bearer " +:+ token))) by (by exists token).
    by rewrite (proj2 (is_empty_false token) Hne). }
  destruct (ListModels_ok env s1 (handlers.llamaClient h) ctx url body upstream
              Hurl Hreq Hdo Hdec) as [Hres Hreadings].
  pose proof (ListModels_client_events env s1 (handlers.llamaClient h) ctx) as Hev.
  assert (Hout : outbound (events (run (llamastack.ListModels (handlers.llamaClient h) ctx)
                                      env s1))
                 = [ListModels_request (handlers.llamaClient h) ctx url]).
  { rewrite ListModels_run, Hurl, Hreq. simpl. rewrite Hdo. simpl. rewrite Hdec. simpl.
    by rewrite outbound_app, outbound_readings. }
  rewrite HandleListModels_run, Hen, HandleListModels_fetch_run.
  fold s1 ctx.
  set (guard := run (handlers.validateAuth h c) env s1) in *.
  set (lm := run (llamastack.ListModels (handlers.llamaClient h) ctx) env s1) in *.
  clearbody guard lm. rewrite Hverdict, Hres.
  cbn -[written outbound readings app imap].
  split; [reflexivity|].
  rewrite !written_app, !outbound_app, !readings_app, Hgo, Hgw, Hgr, Hout, Hreadings,
    (client_events_written (events lm)) by exact Hev.
  cbn -[imap]. rewrite length_app, length_imap. cbn.
  split; [reflexivity|]. split; [reflexivity|]. lia.
Qed.

Lemma accepted_request_gets_models_witness :
  written (events (run (handlers.HandleListModels
                          (handlers.NewModelsHandler sample.client true)
                          (sample.request (http.Set_ ∅ "Authorization" "Bearer t")))
                       (sample.env (http.DoResponse 200 "{}")
                          (Ok {| Models := mk_slice [sample.llama "llama-3.1-8b" "meta"] |}))
                       initial))
  = [(200, gin.JModels
             {| models.Object := "list";
                models.Data := mk_slice
                  [{| openai.ID := "llama-3.1-8b"; openai.Created := 1700000001;
                      openai.Object := "model"; openai.OwnedBy := "llamastack" |}] |})].
Proof.
  assert (Hv : http.Get (gin.Header (sample.request (http.Set_ ∅ "Authorization" "Bearer t")))
                 "Authorization" = "Bearer " +:+ "t") by (vm_compute; reflexivity).
  destruct (accepted_request_gets_models
              (sample.env (http.DoResponse 200 "{}")
                 (Ok {| Models := mk_slice [sample.llama "llama-3.1-8b" "meta"] |}))
              initial (handlers.NewModelsHandler sample.client true)
              (sample.request (http.Set_ ∅ "Authorization" "Bearer t"))
              "t" "http://llamastack:8321/v1/models" "{}"
              {| Models := mk_slice [sample.llama "llama-3.1-8b" "meta"] |}
              eq_refl Hv) as (_ & Hw & _);
    [discriminate | reflexivity | reflexivity | reflexivity | reflexivity |].
  exact Hw.
Defined.
